(** * The to-do list page: a model of [resources/js/main.js]

    The page is one class, [TodoApp], whose methods mutate [this.todos], write
    the collection to [localStorage] and redraw the list.  The model below
    follows the class method by method.  What the class takes from the browser
    (the clock, [Date], [JSON], [localStorage], the [div] used for escaping)
    is modelled next to it, each piece under its JavaScript name. *)

From Stdlib Require Import ZArith NArith List Bool Lia Ascii String Decimal DecimalFacts DecimalZ.
From stdpp Require Import base option gmap strings list.

Set Warnings "-register-all".
Local Open Scope Z_scope.

(* ===================================================================== *)
(** ** JavaScript strings *)
(* ===================================================================== *)

(** A JavaScript string is a sequence of UTF-16 code units; [localStorage],
    [JSON] and the DOM all work on code units, so that is what the model
    keeps.  A code unit is an [N]; no function below depends on the bound
    [< 65536]. *)
Abbreviation jsstring := (list N).

(** String literals of the source, through their ASCII codes. *)
Definition js (s : string) : jsstring :=
  List.map N_of_ascii (list_ascii_of_string s).

(** ECMAScript [WhiteSpace] and [LineTerminator] code points, the characters
    that [String.prototype.trim] strips. *)
Definition isWhiteSpace (c : N) : bool :=
  ((9 <=? c) && (c <=? 13) ||               (* TAB, LF, VT, FF, CR *)
   (c =? 32) || (c =? 160) ||               (* SP, NBSP *)
   (c =? 5760) ||                           (* U+1680 *)
   (8192 <=? c) && (c <=? 8202) ||          (* U+2000 .. U+200A *)
   (c =? 8232) || (c =? 8233) ||            (* U+2028, U+2029 *)
   (c =? 8239) || (c =? 8287) ||            (* U+202F, U+205F *)
   (c =? 12288) || (c =? 65279))%N.         (* U+3000, U+FEFF *)

Fixpoint trimStart (s : jsstring) : jsstring :=
  match s with
  | c :: r => if isWhiteSpace c then trimStart r else s
  | [] => []
  end.

Definition trimEnd (s : jsstring) : jsstring := rev (trimStart (rev s)).

(** [s.trim()] *)
Definition trim (s : jsstring) : jsstring := trimEnd (trimStart s).

(** [!text] for a string: the empty string is the only falsy one. *)
Definition truthy (s : jsstring) : bool :=
  match s with [] => false | _ :: _ => true end.

(** Decimal digits of an integer, as [String(n)], template literals and
    [JSON.stringify] print an integer-valued number (below 10^21 in absolute
    value, where JavaScript changes to the exponent notation). *)
Fixpoint digits (u : Decimal.uint) : jsstring :=
  match u with
  | Nil => []
  | D0 u => 48%N :: digits u
  | D1 u => 49%N :: digits u
  | D2 u => 50%N :: digits u
  | D3 u => 51%N :: digits u
  | D4 u => 52%N :: digits u
  | D5 u => 53%N :: digits u
  | D6 u => 54%N :: digits u
  | D7 u => 55%N :: digits u
  | D8 u => 56%N :: digits u
  | D9 u => 57%N :: digits u
  end.

Definition numberToString (z : Z) : jsstring :=
  match Z.to_int z with
  | Pos u => digits u
  | Neg u => 45%N :: digits u
  end.

(* ===================================================================== *)
(** ** The DOM's text escaping *)
(* ===================================================================== *)

(** [escapeHtml(text)] builds a detached [div], assigns [text] to its
    [textContent] and reads [innerHTML] back.  Reading [innerHTML] serialises
    the single text node with the HTML fragment serialisation algorithm,
    which replaces [&], U+00A0, [<] and [>] and copies every other code
    unit. *)
Definition escapeUnit (c : N) : jsstring :=
  if (c =? 38)%N then js "&amp;"
  else if (c =? 160)%N then js "&nbsp;"
  else if (c =? 60)%N then js "&lt;"
  else if (c =? 62)%N then js "&gt;"
  else [c].

Definition escapeHtml (text : jsstring) : jsstring :=
  flat_map escapeUnit text.

(* ===================================================================== *)
(** ** JSON *)
(* ===================================================================== *)

(** The values [JSON.parse] can return and [JSON.stringify] is applied to.
    Numbers are the integers: every number the page creates is an integer
    ([Date.now()] plus an array index), and a stored text with a fraction or
    an exponent is outside the model ([JSON_parse] answers [None]). *)
Inductive json : Type :=
| JNull
| JBool (b : bool)
| JNum (n : Z)
| JStr (s : jsstring)
| JArr (l : list json)
| JObj (m : list (jsstring * json)).

(** *** [JSON.stringify] *)

Definition hexDigit (n : N) : N :=
  if (n <? 10)%N then (48 + n)%N else (87 + n)%N.

Definition hex4 (c : N) : jsstring :=
  [hexDigit ((c / 4096) mod 16); hexDigit ((c / 256) mod 16);
   hexDigit ((c / 16) mod 16); hexDigit (c mod 16)]%N.

(** [UnicodeEscape]: backslash, [u], four lower-case hexadecimal digits. *)
Definition unicodeEscape (c : N) : jsstring := 92%N :: 117%N :: hex4 c.

Definition isLeadSurrogate (c : N) : bool := ((55296 <=? c) && (c <=? 56319))%N.
Definition isTrailSurrogate (c : N) : bool := ((56320 <=? c) && (c <=? 57343))%N.

(** One code unit that is not a surrogate, as [QuoteJSONString] writes it. *)
Definition quoteUnit (c : N) : jsstring :=
  if (c =? 8)%N then [92; 98]%N             (* \b *)
  else if (c =? 9)%N then [92; 116]%N       (* \t *)
  else if (c =? 10)%N then [92; 110]%N      (* \n *)
  else if (c =? 12)%N then [92; 102]%N      (* \f *)
  else if (c =? 13)%N then [92; 114]%N      (* \r *)
  else if (c =? 34)%N then [92; 34]%N       (* backslash, quote *)
  else if (c =? 92)%N then [92; 92]%N       (* \\ *)
  else if (c <? 32)%N then unicodeEscape c
  else [c].

(** [QuoteJSONString] walks the code points of the string: a surrogate pair
    is copied, a lone surrogate is written as a [\u] escape. *)
Fixpoint quoteBody (s : jsstring) : jsstring :=
  match s with
  | [] => []
  | c :: r =>
    if isLeadSurrogate c then
      match r with
      | d :: r' =>
        if isTrailSurrogate d then c :: d :: quoteBody r'
        else unicodeEscape c ++ quoteBody r
      | [] => unicodeEscape c
      end
    else if isTrailSurrogate c then unicodeEscape c ++ quoteBody r
    else quoteUnit c ++ quoteBody r
  end.

Definition quoteJSONString (s : jsstring) : jsstring :=
  34%N :: quoteBody s ++ [34%N].

(** Items separated by commas. *)
Fixpoint commaSep (items : list jsstring) : jsstring :=
  match items with
  | [] => []
  | [x] => x
  | x :: rest => x ++ 44%N :: commaSep rest
  end.

(** [JSON.stringify(value)] without indentation: no white space at all. *)
Fixpoint JSON_stringify (j : json) : jsstring :=
  match j with
  | JNull => js "null"
  | JBool true => js "true"
  | JBool false => js "false"
  | JNum n => numberToString n
  | JStr s => quoteJSONString s
  | JArr l => 91%N :: commaSep (List.map JSON_stringify l) ++ [93%N]
  | JObj m =>
    123%N ::
    commaSep (List.map (fun kv => let '(k, v) := kv in
                                  quoteJSONString k ++ 58%N :: JSON_stringify v) m)
    ++ [125%N]
  end.

(** *** [JSON.parse] *)

Definition isJsonSpace (c : N) : bool :=
  ((c =? 32) || (c =? 9) || (c =? 10) || (c =? 13))%N.

Fixpoint skipSpace (s : jsstring) : jsstring :=
  match s with
  | c :: r => if isJsonSpace c then skipSpace r else s
  | [] => []
  end.

Definition hexValue (c : N) : option N :=
  if ((48 <=? c) && (c <=? 57))%N then Some (c - 48)%N
  else if ((97 <=? c) && (c <=? 102))%N then Some (c - 87)%N
  else if ((65 <=? c) && (c <=? 70))%N then Some (c - 55)%N
  else None.

Definition fromHex4 (h1 h2 h3 h4 : N) : option N :=
  match hexValue h1, hexValue h2, hexValue h3, hexValue h4 with
  | Some a, Some b, Some c, Some d => Some (4096 * a + 256 * b + 16 * c + d)%N
  | _, _, _, _ => None
  end.

(** The character after a backslash, other than [u]. *)
Definition unescapeUnit (e : N) : option N :=
  if (e =? 34)%N then Some 34%N
  else if (e =? 92)%N then Some 92%N
  else if (e =? 47)%N then Some 47%N
  else if (e =? 98)%N then Some 8%N
  else if (e =? 102)%N then Some 12%N
  else if (e =? 110)%N then Some 10%N
  else if (e =? 114)%N then Some 13%N
  else if (e =? 116)%N then Some 9%N
  else None.

(** A string after its opening quote: the contents and what follows the
    closing quote. *)
Fixpoint parseStringBody (s : jsstring) : option (jsstring * jsstring) :=
  match s with
  | [] => None
  | c :: r =>
    if (c =? 34)%N then Some ([], r)
    else if (c =? 92)%N then
      match r with
      | [] => None
      | e :: r1 =>
        if (e =? 117)%N then
          match r1 with
          | h1 :: h2 :: h3 :: h4 :: r2 =>
            match fromHex4 h1 h2 h3 h4, parseStringBody r2 with
            | Some u, Some (t, rest) => Some (u :: t, rest)
            | _, _ => None
            end
          | _ => None
          end
        else
          match unescapeUnit e, parseStringBody r1 with
          | Some u, Some (t, rest) => Some (u :: t, rest)
          | _, _ => None
          end
      end
    else if (c <? 32)%N then None
    else
      match parseStringBody r with
      | Some (t, rest) => Some (c :: t, rest)
      | None => None
      end
  end.

Definition isDigit (c : N) : bool := ((48 <=? c) && (c <=? 57))%N.

Definition digitCons (c : N) (u : Decimal.uint) : Decimal.uint :=
  if (c =? 48)%N then D0 u else if (c =? 49)%N then D1 u
  else if (c =? 50)%N then D2 u else if (c =? 51)%N then D3 u
  else if (c =? 52)%N then D4 u else if (c =? 53)%N then D5 u
  else if (c =? 54)%N then D6 u else if (c =? 55)%N then D7 u
  else if (c =? 56)%N then D8 u else D9 u.

Fixpoint parseDigits (s : jsstring) : Decimal.uint * jsstring :=
  match s with
  | c :: r =>
    if isDigit c then
      let '(u, rest) := parseDigits r in (digitCons c u, rest)
    else (Nil, s)
  | [] => (Nil, [])
  end.

(** An integer literal: an optional minus sign, then [0] or a digit sequence
    that does not start with [0]. *)
Definition parseNumber (s : jsstring) : option (Z * jsstring) :=
  let '(negative, s1) :=
    match s with
    | c :: r => if (c =? 45)%N then (true, r) else (false, s)
    | [] => (false, s)
    end in
  let '(u, rest) := parseDigits s1 in
  match u with
  | Nil => None
  | D0 (D0 _ | D1 _ | D2 _ | D3 _ | D4 _ | D5 _ | D6 _ | D7 _ | D8 _ | D9 _) => None
  | _ => Some (Z.of_int (if negative then Neg u else Pos u), rest)
  end.

Fixpoint stripPrefix (p s : jsstring) : option (jsstring) :=
  match p, s with
  | [], _ => Some s
  | a :: p', b :: s' => if (a =? b)%N then stripPrefix p' s' else None
  | _ :: _, [] => None
  end.

(** Recursive descent over the text.  [fuel] bounds the number of nested
    calls; [JSON_parse] below passes more than any text can use. *)
Fixpoint parseValue (fuel : nat) (s : jsstring) : option (json * jsstring) :=
  match fuel with
  | O => None
  | S fuel =>
    match skipSpace s with
    | [] => None
    | c :: r =>
      if (c =? 34)%N then
        match parseStringBody r with
        | Some (t, rest) => Some (JStr t, rest)
        | None => None
        end
      else if (c =? 91)%N then
        match skipSpace r with
        | d :: r' =>
          if (d =? 93)%N then Some (JArr [], r')
          else match parseElements fuel r with
               | Some (l, rest) => Some (JArr l, rest)
               | None => None
               end
        | [] => None
        end
      else if (c =? 123)%N then
        match skipSpace r with
        | d :: r' =>
          if (d =? 125)%N then Some (JObj [], r')
          else match parseMembers fuel r with
               | Some (m, rest) => Some (JObj m, rest)
               | None => None
               end
        | [] => None
        end
      else if (c =? 110)%N then
        match stripPrefix (js "ull") r with
        | Some rest => Some (JNull, rest) | None => None end
      else if (c =? 116)%N then
        match stripPrefix (js "rue") r with
        | Some rest => Some (JBool true, rest) | None => None end
      else if (c =? 102)%N then
        match stripPrefix (js "alse") r with
        | Some rest => Some (JBool false, rest) | None => None end
      else
        match parseNumber (c :: r) with
        | Some (n, rest) => Some (JNum n, rest)
        | None => None
        end
    end
  end
with parseElements (fuel : nat) (s : jsstring) : option (list json * jsstring) :=
  match fuel with
  | O => None
  | S fuel =>
    match parseValue fuel s with
    | Some (v, r) =>
      match skipSpace r with
      | d :: r' =>
        if (d =? 44)%N then
          match parseElements fuel r' with
          | Some (l, rest) => Some (v :: l, rest)
          | None => None
          end
        else if (d =? 93)%N then Some ([v], r')
        else None
      | [] => None
      end
    | None => None
    end
  end
with parseMembers (fuel : nat) (s : jsstring) : option (list (jsstring * json) * jsstring) :=
  match fuel with
  | O => None
  | S fuel =>
    match skipSpace s with
    | q :: r0 =>
      if (q =? 34)%N then
        match parseStringBody r0 with
        | Some (k, r1) =>
          match skipSpace r1 with
          | c :: r2 =>
            if (c =? 58)%N then
              match parseValue fuel r2 with
              | Some (v, r3) =>
                match skipSpace r3 with
                | d :: r4 =>
                  if (d =? 44)%N then
                    match parseMembers fuel r4 with
                    | Some (m, rest) => Some ((k, v) :: m, rest)
                    | None => None
                    end
                  else if (d =? 125)%N then Some ([(k, v)], r4)
                  else None
                | [] => None
                end
              | None => None
              end
            else None
          | [] => None
          end
        | None => None
        end
      else None
    | [] => None
    end
  end.

(** [JSON.parse(text)]: one value, then nothing but white space.  [None] is
    the [SyntaxError] (or a text outside the model). *)
Definition JSON_parse (s : jsstring) : option json :=
  match parseValue (S (length s)) s with
  | Some (v, rest) =>
    match skipSpace rest with
    | [] => Some v
    | _ :: _ => None
    end
  | None => None
  end.

(* ===================================================================== *)
(** ** Tasks and their stored form *)
(* ===================================================================== *)

(** One entry of [this.todos]: the object literal of [addTodo] and of the
    migration in [loadData]. *)
Record Task : Type := {
  id : Z;
  text : jsstring;
  completed : bool;
  createdAt : jsstring
}.

(** [{ ...todo, completed: !todo.completed }] *)
Definition flipCompleted (todo : Task) : Task :=
  {| id := id todo; text := text todo;
     completed := negb (completed todo); createdAt := createdAt todo |}.

(** What [JSON.stringify] sees of a task: its four properties in creation
    order. *)
Definition taskToJson (todo : Task) : json :=
  JObj [(js "id", JNum (id todo));
        (js "text", JStr (text todo));
        (js "completed", JBool (completed todo));
        (js "createdAt", JStr (createdAt todo))].

Definition todosToJson (l : list Task) : json := JArr (List.map taskToJson l).

(** Property lookup on a parsed object: of two members with one key,
    [JSON.parse] keeps the later one. *)
Fixpoint getProp (k : jsstring) (m : list (jsstring * json)) : option json :=
  match m with
  | [] => None
  | (k', v) :: rest =>
    match getProp k rest with
    | Some v' => Some v'
    | None => if bool_decide (k' = k) then Some v else None
    end
  end.

(** A parsed value read as a task.  The page itself never checks the shape
    of what it loads; a stored value that is not an array of objects with
    these four properties at these types is outside the model, and loading it
    answers [None].  Other properties of a stored object, and the order of
    its properties, are not kept. *)
Definition taskOfJson (j : json) : option Task :=
  match j with
  | JObj m =>
    match getProp (js "id") m, getProp (js "text") m,
          getProp (js "completed") m, getProp (js "createdAt") m with
    | Some (JNum i), Some (JStr t), Some (JBool c), Some (JStr d) =>
      Some {| id := i; text := t; completed := c; createdAt := d |}
    | _, _, _, _ => None
    end
  | _ => None
  end.

Fixpoint allSome {A B : Type} (f : A -> option B) (l : list A) : option (list B) :=
  match l with
  | [] => Some []
  | x :: rest =>
    match f x, allSome f rest with
    | Some y, Some ys => Some (y :: ys)
    | _, _ => None
    end
  end.

Definition todosOfJson (j : json) : option (list Task) :=
  match j with
  | JArr l => allSome taskOfJson l
  | _ => None
  end.

Definition stringOfJson (j : json) : option (jsstring) :=
  match j with JStr s => Some s | _ => None end.

(** The old format, [{ todo: [string], completed: [string] }]. *)
Definition legacyOfJson (j : json) : option (list jsstring * list jsstring) :=
  match j with
  | JObj m =>
    match getProp (js "todo") m, getProp (js "completed") m with
    | Some (JArr a), Some (JArr b) =>
      match allSome stringOfJson a, allSome stringOfJson b with
      | Some ta, Some tb => Some (ta, tb)
      | _, _ => None
      end
    | _, _ => None
    end
  | _ => None
  end.

(* ===================================================================== *)
(** ** The browser around the page *)
(* ===================================================================== *)

(** [Date]: formatting and parsing depend on the host and its time zone, so
    they are an interface.  A time value is a number of milliseconds since
    the epoch. *)
Class Host : Type := {
  (** [new Date(t).toISOString()] *)
  toISOString : Z -> jsstring;
  (** the time value of [new Date(s)]; [None] is an invalid date *)
  Date_parse : jsstring -> option Z;
  (** [new Date(t).toDateString()]: the calendar day of [t] in local time *)
  toDateString : Z -> jsstring
}.

(** [localStorage], the clock and the timers set by [setTimeout].  The clock
    is the sequence of values its successive readings return; nothing is
    assumed about it here. *)
Record Env : Type := {
  localStorage : gmap string (jsstring);
  timeline : nat -> Z;
  readings : nat;
  timeouts : list Z
}.

Definition getItem (k : string) (e : Env) : option (jsstring) :=
  localStorage e !! k.

Definition setItem (k : string) (v : jsstring) (e : Env) : Env :=
  {| localStorage := <[k := v]> (localStorage e); timeline := timeline e;
     readings := readings e; timeouts := timeouts e |}.

Definition removeItem (k : string) (e : Env) : Env :=
  {| localStorage := delete k (localStorage e); timeline := timeline e;
     readings := readings e; timeouts := timeouts e |}.

(** [Date.now()], and the time value of [new Date()]: one reading of the
    clock. *)
Definition Date_now (e : Env) : Z * Env :=
  (timeline e (readings e),
   {| localStorage := localStorage e; timeline := timeline e;
      readings := S (readings e); timeouts := timeouts e |}).

(** [setTimeout(callback, 300)] where the callback deletes task [i]: every
    timer of the page has the same delay, so they fire in the order they
    were set. *)
Definition setTimeout (i : Z) (e : Env) : Env :=
  {| localStorage := localStorage e; timeline := timeline e;
     readings := readings e; timeouts := timeouts e ++ [i] |}.

(** [getItem(k)] used as a condition: [null] and the empty string are
    falsy. *)
Definition getTruthy (k : string) (e : Env) : option (jsstring) :=
  match getItem k e with
  | Some v => if truthy v then Some v else None
  | None => None
  end.

(* ===================================================================== *)
(** ** The class [TodoApp] *)
(* ===================================================================== *)

(** The fields of the object and the state of the three page elements it
    writes to: the input box, the list and the statistics line.  Of the
    list the model keeps the markup assigned to [innerHTML] and the
    [data-id] attribute of each row that markup creates, which is what
    [document.querySelector] looks at. *)
Record TodoApp : Type := {
  todos : list Task;
  currentTheme : jsstring;
  currentSection : jsstring;
  todoInput_value : jsstring;
  todoList_innerHTML : jsstring;
  todoList_dataIds : list jsstring;
  stats_textContent : jsstring
}.

Definition withTodos (l : list Task) (app : TodoApp) : TodoApp :=
  {| todos := l; currentTheme := currentTheme app;
     currentSection := currentSection app;
     todoInput_value := todoInput_value app;
     todoList_innerHTML := todoList_innerHTML app;
     todoList_dataIds := todoList_dataIds app;
     stats_textContent := stats_textContent app |}.

Definition withTheme (t : jsstring) (app : TodoApp) : TodoApp :=
  {| todos := todos app; currentTheme := t;
     currentSection := currentSection app;
     todoInput_value := todoInput_value app;
     todoList_innerHTML := todoList_innerHTML app;
     todoList_dataIds := todoList_dataIds app;
     stats_textContent := stats_textContent app |}.

Definition withSection (s : jsstring) (app : TodoApp) : TodoApp :=
  {| todos := todos app; currentTheme := currentTheme app;
     currentSection := s;
     todoInput_value := todoInput_value app;
     todoList_innerHTML := todoList_innerHTML app;
     todoList_dataIds := todoList_dataIds app;
     stats_textContent := stats_textContent app |}.

Definition withInput (v : jsstring) (app : TodoApp) : TodoApp :=
  {| todos := todos app; currentTheme := currentTheme app;
     currentSection := currentSection app;
     todoInput_value := v;
     todoList_innerHTML := todoList_innerHTML app;
     todoList_dataIds := todoList_dataIds app;
     stats_textContent := stats_textContent app |}.

Definition withTodoList (html : jsstring) (ids : list jsstring) (app : TodoApp) : TodoApp :=
  {| todos := todos app; currentTheme := currentTheme app;
     currentSection := currentSection app;
     todoInput_value := todoInput_value app;
     todoList_innerHTML := html;
     todoList_dataIds := ids;
     stats_textContent := stats_textContent app |}.

Definition withStats (t : jsstring) (app : TodoApp) : TodoApp :=
  {| todos := todos app; currentTheme := currentTheme app;
     currentSection := currentSection app;
     todoInput_value := todoInput_value app;
     todoList_innerHTML := todoList_innerHTML app;
     todoList_dataIds := todoList_dataIds app;
     stats_textContent := t |}.

(** [a === b] on strings. *)
Definition strEq (a b : jsstring) : bool := bool_decide (a = b).

(** [array.forEach((x, index) => ...)], the callback acting on a state. *)
Fixpoint forEachFrom {A S : Type} (f : A -> Z -> S -> S) (index : Z)
    (l : list A) (s : S) : S :=
  match l with
  | [] => s
  | x :: rest => forEachFrom f (index + 1) rest (f x index s)
  end.

Definition forEach {A S : Type} (f : A -> Z -> S -> S) (l : list A) (s : S) : S :=
  forEachFrom f 0 l s.

(** Pieces of the template literals of [render]. *)
Definition dq : jsstring := [34%N].
Definition nl (indent : nat) : jsstring := 10%N :: repeat 32%N indent.

(** [this.escapeHtml(text)] is [escapeHtml] above. *)

(** The template of one row, lines 177-187. *)
Definition renderItem (todo : Task) : jsstring :=
  nl 8 ++ js "<div class=" ++ dq ++ js "todo-item "
       ++ (if completed todo then js "completed" else []) ++ dq
       ++ js " data-id=" ++ dq ++ numberToString (id todo) ++ dq ++ js ">"
  ++ nl 10 ++ js "<div class=" ++ dq ++ js "todo-checkbox "
       ++ (if completed todo then js "checked" else []) ++ dq ++ js " "
  ++ nl 15 ++ js "onclick=" ++ dq ++ js "app.toggleTodo("
       ++ numberToString (id todo) ++ js ")" ++ dq ++ js ">"
  ++ nl 12 ++ (if completed todo then [10003%N] else [])
  ++ nl 10 ++ js "</div>"
  ++ nl 10 ++ js "<div class=" ++ dq ++ js "todo-text" ++ dq ++ js ">"
       ++ escapeHtml (text todo) ++ js "</div>"
  ++ nl 10 ++ js "<button class=" ++ dq ++ js "delete-btn" ++ dq
       ++ js " onclick=" ++ dq ++ js "app.deleteTodo("
       ++ numberToString (id todo) ++ js ")" ++ dq ++ js ">"
  ++ nl 12 ++ [10005%N]
  ++ nl 10 ++ js "</button>"
  ++ nl 8 ++ js "</div>"
  ++ nl 6.

(** Names that every object literal inherits from [Object.prototype]:
    [emptyMessages[name]] is then a function or an object, which is truthy and
    has neither an [emoji] nor a [text]. *)
Definition inheritedNames : list jsstring :=
  List.map js ["constructor"; "hasOwnProperty"; "isPrototypeOf";
               "propertyIsEnumerable"; "toLocaleString"; "toString";
               "valueOf"; "__proto__"; "__defineGetter__";
               "__defineSetter__"; "__lookupGetter__"; "__lookupSetter__"]%string.

(** [emptyMessages[this.currentSection] || emptyMessages.all], as the pair
    that the template prints for [message.emoji] and [message.text]. *)
Definition emptyMessage (section : jsstring) : jsstring * jsstring :=
  if strEq section (js "today") then
    ([55357; 56517]%N, js "No tasks for today. Add one above!")
  else if strEq section (js "completed") then
    ([9989%N], js "No completed tasks yet.")
  else if bool_decide (section ∈ inheritedNames) then
    (js "undefined", js "undefined")
  else
    ([55356; 57119]%N, js "No tasks yet. Add one above to get started!").

Definition renderEmpty (section : jsstring) : jsstring :=
  let '(emoji, message) := emptyMessage section in
  nl 8 ++ js "<div class=" ++ dq ++ js "empty-state" ++ dq ++ js ">"
  ++ nl 10 ++ js "<div>" ++ emoji ++ js "</div>"
  ++ nl 10 ++ js "<p>" ++ message ++ js "</p>"
  ++ nl 8 ++ js "</div>"
  ++ nl 6.

(** [n !== 1 ? 's' : ''] *)
Definition plural (n : nat) : jsstring :=
  if Nat.eqb n 1 then [] else js "s".

Definition countToString (n : nat) : jsstring := numberToString (Z.of_nat n).

(** [save()] for a given value of [this.todos]. *)
Definition saveTodos (l : list Task) (e : Env) : Env :=
  setItem "todos" (JSON_stringify (todosToJson l)) e.

Definition save (app : TodoApp) (e : Env) : Env := saveTodos (todos app) e.

Section Methods.
Context {host : Host}.

(** [new Date(s).toDateString()] *)
Definition dateStringOf (s : jsstring) : jsstring :=
  match Date_parse s with
  | Some t => toDateString t
  | None => js "Invalid Date"
  end.

(** The callback of the [today] filter, shared by [getFilteredTodos] and
    [updateStats]. *)
Definition isForToday (today : jsstring) (todo : Task) : bool :=
  strEq (dateStringOf (createdAt todo)) today && negb (completed todo).

(** [loadData()], lines 21-60.  It runs in the constructor, before any other
    field exists, so it is a function of the environment; the result is the
    value given to [this.todos]. *)
Definition loadData (e : Env) : option (list Task * Env) :=
  match getTruthy "todos" e with
  | Some newData =>
    match JSON_parse newData with
    | Some j =>
      match todosOfJson j with
      | Some l => Some (l, e)
      | None => None
      end
    | None => None
    end
  | None =>
    match getTruthy "todoList" e with
    | Some oldData =>
      match JSON_parse oldData with
      | Some j =>
        match legacyOfJson j with
        | Some (parsed_todo, parsed_completed) =>
          let s0 : list Task * Env := ([], e) in
          let s1 :=
            forEach (fun text index (s : list Task * Env) =>
                       let '(now, e1) := Date_now (snd s) in
                       let '(created, e2) := Date_now e1 in
                       (fst s ++ [{| id := now + index;
                                     text := text;
                                     completed := false;
                                     createdAt := toISOString created |}], e2))
                    parsed_todo s0 in
          let s2 :=
            forEach (fun text index (s : list Task * Env) =>
                       let '(now, e1) := Date_now (snd s) in
                       let '(created, e2) := Date_now e1 in
                       (fst s ++ [{| id := now + 1000 + index;
                                     text := text;
                                     completed := true;
                                     createdAt := toISOString created |}], e2))
                    parsed_completed s1 in
          Some (fst s2, removeItem "todoList" (saveTodos (fst s2) (snd s2)))
        | None => None
        end
      | None => None
      end
    | None => Some ([], e)
    end
  end.

(** [getFilteredTodos()], lines 137-152. *)
Definition getFilteredTodos (app : TodoApp) (e : Env) : list Task * Env :=
  let '(now, e1) := Date_now e in
  let today := toDateString now in
  (if strEq (currentSection app) (js "today") then
     List.filter (isForToday today) (todos app)
   else if strEq (currentSection app) (js "completed") then
     List.filter (fun todo => completed todo) (todos app)
   else
     List.filter (fun todo => negb (completed todo)) (todos app),
   e1).

(** [updateStats()], lines 194-220. *)
Definition updateStats (app : TodoApp) (e : Env) : TodoApp * Env :=
  let total := length (todos app) in
  let completedCount := length (List.filter (fun todo => completed todo) (todos app)) in
  let pending := (total - completedCount)%nat in
  let '(now, e1) := Date_now e in
  let today := toDateString now in
  let todayTasks := length (List.filter (isForToday today) (todos app)) in
  let line :=
    if Nat.eqb total 0 then js "0 tasks"
    else if strEq (currentSection app) (js "today") then
      countToString todayTasks ++ js " task" ++ plural todayTasks ++ js " for today"
    else if strEq (currentSection app) (js "completed") then
      countToString completedCount ++ js " completed task" ++ plural completedCount
    else
      countToString total ++ js " task" ++ plural total
      ++ js " " ++ [8226%N] ++ js " " ++ countToString completedCount ++ js " completed"
      ++ js " " ++ [8226%N] ++ js " " ++ countToString pending ++ js " pending" in
  (withStats line app, e1).

(** [render()], lines 158-192. *)
Definition render (app : TodoApp) (e : Env) : TodoApp * Env :=
  let '(filteredTodos, e1) := getFilteredTodos app e in
  let app1 :=
    if Nat.eqb (length filteredTodos) 0 then
      withTodoList (renderEmpty (currentSection app)) [] app
    else
      withTodoList (concat (List.map renderItem filteredTodos))
                   (List.map (fun todo => numberToString (id todo)) filteredTodos)
                   app in
  updateStats app1 e1.

(** [addTodo()], lines 86-101. *)
Definition addTodo (app : TodoApp) (e : Env) : TodoApp * Env :=
  let text := trim (todoInput_value app) in
  if negb (truthy text) then (app, e)
  else
    let '(now, e1) := Date_now e in
    let '(created, e2) := Date_now e1 in
    let todo := {| id := now; text := text; completed := false;
                   createdAt := toISOString created |} in
    let app1 := withInput [] (withTodos (todo :: todos app) app) in
    render app1 (save app1 e2).

(** [toggleTodo(id)], lines 103-109. *)
Definition toggleTodo (i : Z) (app : TodoApp) (e : Env) : TodoApp * Env :=
  let app1 :=
    withTodos (List.map (fun todo => if id todo =? i then flipCompleted todo else todo)
                        (todos app)) app in
  render app1 (save app1 e).

(** The callback that [deleteTodo] hands to [setTimeout], lines 116-118. *)
Definition deleteCallback (i : Z) (app : TodoApp) (e : Env) : TodoApp * Env :=
  let app1 :=
    withTodos (List.filter (fun todo => negb (id todo =? i)) (todos app)) app in
  render app1 (save app1 e).

(** [deleteTodo(id)], lines 111-121: the row is looked up in the page by its
    [data-id]; only if there is one is the removal scheduled.  (The class
    [removing] put on the row is a style and is not kept.) *)
Definition deleteTodo (i : Z) (app : TodoApp) (e : Env) : TodoApp * Env :=
  if bool_decide (numberToString i ∈ todoList_dataIds app) then
    (app, setTimeout i e)
  else (app, e).

(** The oldest timer fires: its callback runs. *)
Definition fireTimeout (app : TodoApp) (e : Env) : TodoApp * Env :=
  match timeouts e with
  | [] => (app, e)
  | i :: rest =>
    deleteCallback i app
      {| localStorage := localStorage e; timeline := timeline e;
         readings := readings e; timeouts := rest |}
  end.

(** [switchSection(section)], lines 123-135 (the [active] class of the tabs
    is a style and is not kept). *)
Definition switchSection (section : jsstring) (app : TodoApp) (e : Env) : TodoApp * Env :=
  render (withSection section app) e.

(** [toggleTheme()], lines 229-234. *)
Definition toggleTheme (app : TodoApp) (e : Env) : TodoApp * Env :=
  let theme := if strEq (currentTheme app) (js "light") then js "dark" else js "light" in
  (withTheme theme app, setItem "theme" theme e).

(** [new TodoApp()], lines 2-19 and [init()]: the data is loaded, the theme
    read, the section set to [all], and the page rendered.  The input box
    of a freshly loaded page is empty. *)
Definition TodoApp_new (e : Env) : option (TodoApp * Env) :=
  match loadData e with
  | Some (l, e1) =>
    let theme :=
      match getTruthy "theme" e1 with
      | Some t => t
      | None => js "light"
      end in
    Some (render {| todos := l; currentTheme := theme;
                    currentSection := js "all";
                    todoInput_value := [];
                    todoList_innerHTML := [];
                    todoList_dataIds := [];
                    stats_textContent := [] |} e1)
  | None => None
  end.

(** What the user and the browser can do to the page. *)
Inductive Event : Type :=
| TypeText (s : jsstring)        (* edit the input box *)
| Add                          (* the add button, or Enter in the box *)
| Toggle (i : Z)               (* [app.toggleTodo(i)] *)
| Delete (i : Z)               (* [app.deleteTodo(i)] *)
| Switch (section : jsstring)    (* a tab *)
| Theme                        (* the theme button *)
| TimerExpires.                     (* the oldest timer expires *)

Definition step (ev : Event) (st : TodoApp * Env) : TodoApp * Env :=
  let '(app, e) := st in
  match ev with
  | TypeText s => (withInput s app, e)
  | Add => addTodo app e
  | Toggle i => toggleTodo i app e
  | Delete i => deleteTodo i app e
  | Switch section => switchSection section app e
  | Theme => toggleTheme app e
  | TimerExpires => fireTimeout app e
  end.

Definition run (evs : list Event) (st : TodoApp * Env) : TodoApp * Env :=
  fold_left (fun st ev => step ev st) evs st.

End Methods.

(* ===================================================================== *)
(** ** A host to run the model on *)
(* ===================================================================== *)

(** A browser whose local time zone is UTC.  Its [Date_parse] reads the
    date-time format that [toISOString] writes for the years 0 to 9999 and
    treats every other text as an invalid date. *)

(** Year, month and day of a day number counted from 1970-01-01. *)
Definition civilFromDays (days : Z) : Z * Z * Z :=
  let z := days + 719468 in
  let era := z / 146097 in
  let doe := z - era * 146097 in
  let yoe := (doe - doe / 1460 + doe / 36524 - doe / 146096) / 365 in
  let doy := doe - (365 * yoe + yoe / 4 - yoe / 100) in
  let mp := (5 * doy + 2) / 153 in
  let d := doy - (153 * mp + 2) / 5 + 1 in
  let m := if mp <? 10 then mp + 3 else mp - 9 in
  (yoe + era * 400 + (if m <=? 2 then 1 else 0), m, d).

Definition daysFromCivil (y m d : Z) : Z :=
  let y' := if m <=? 2 then y - 1 else y in
  let era := y' / 400 in
  let yoe := y' - era * 400 in
  let doy := (153 * (if 2 <? m then m - 3 else m + 9) + 2) / 5 + d - 1 in
  let doe := yoe * 365 + yoe / 4 - yoe / 100 + doy in
  era * 146097 + doe - 719468.

Definition msPerDay : Z := 86400000.

(** A non-negative number in at least [width] digits. *)
Definition padStart (width : nat) (n : Z) : jsstring :=
  let d := numberToString n in
  repeat 48%N (width - length d) ++ d.

Definition yearString (y : Z) : jsstring :=
  if (0 <=? y) && (y <=? 9999) then padStart 4 y
  else (if y <? 0 then 45%N else 43%N) :: padStart 6 (Z.abs y).

Definition utc_toISOString (t : Z) : jsstring :=
  let '(y, m, d) := civilFromDays (t / msPerDay) in
  let ms := t mod msPerDay in
  yearString y ++ js "-" ++ padStart 2 m ++ js "-" ++ padStart 2 d
  ++ js "T" ++ padStart 2 (ms / 3600000)
  ++ js ":" ++ padStart 2 (ms / 60000 mod 60)
  ++ js ":" ++ padStart 2 (ms / 1000 mod 60)
  ++ js "." ++ padStart 3 (ms mod 1000) ++ js "Z".

Definition dayNames : list string :=
  ["Sun"; "Mon"; "Tue"; "Wed"; "Thu"; "Fri"; "Sat"]%string.
Definition monthNames : list string :=
  ["Jan"; "Feb"; "Mar"; "Apr"; "May"; "Jun";
   "Jul"; "Aug"; "Sep"; "Oct"; "Nov"; "Dec"]%string.

Definition utc_toDateString (t : Z) : jsstring :=
  let days := t / msPerDay in
  let '(y, m, d) := civilFromDays days in
  js (nth (Z.to_nat ((days + 4) mod 7)) dayNames ""%string) ++ js " "
  ++ js (nth (Z.to_nat (m - 1)) monthNames ""%string) ++ js " "
  ++ padStart 2 d ++ js " "
  ++ (if y <? 0 then 45%N :: padStart 4 (- y) else padStart 4 y).

(** Exactly [n] decimal digits. *)
Fixpoint readDigits (n : nat) (acc : Z) (s : jsstring) : option (Z * jsstring) :=
  match n with
  | O => Some (acc, s)
  | S n' =>
    match s with
    | c :: r =>
      if isDigit c then readDigits n' (10 * acc + Z.of_N (c - 48)) r else None
    | [] => None
    end
  end.

Definition expect (c : N) (s : jsstring) : option (jsstring) :=
  match s with
  | d :: r => if (c =? d)%N then Some r else None
  | [] => None
  end.

Definition utc_Date_parse (s : jsstring) : option Z :=
  '(y, s) ← readDigits 4 0 s; s ← expect 45 s;
  '(m, s) ← readDigits 2 0 s; s ← expect 45 s;
  '(d, s) ← readDigits 2 0 s; s ← expect 84 s;
  '(hh, s) ← readDigits 2 0 s; s ← expect 58 s;
  '(mm, s) ← readDigits 2 0 s; s ← expect 58 s;
  '(ss, s) ← readDigits 2 0 s; s ← expect 46 s;
  '(ms, s) ← readDigits 3 0 s; s ← expect 90 s;
  match s with
  | [] =>
    if (1 <=? m) && (m <=? 12) && (1 <=? d) && (d <=? 31)
       && (hh <=? 23) && (mm <=? 59) && (ss <=? 59)
    then Some (daysFromCivil y m d * msPerDay
               + hh * 3600000 + mm * 60000 + ss * 1000 + ms)
    else None
  | _ :: _ => None
  end.

Definition utcHost : Host :=
  {| toISOString := utc_toISOString;
     Date_parse := utc_Date_parse;
     toDateString := utc_toDateString |}.

(** A clock that stands still at [t], and the environment of a first visit:
    nothing stored, no timer set. *)
Definition fixedClock (t : Z) : nat -> Z := fun _ => t.

Definition freshEnv (clock : nat -> Z) : Env :=
  {| localStorage := ∅; timeline := clock; readings := 0; timeouts := [] |}.

Definition envWith (store : list (string * jsstring)) (clock : nat -> Z) : Env :=
  {| localStorage := list_to_map store; timeline := clock;
     readings := 0; timeouts := [] |}.



(* ===================================================================== *)
(** ** Vocabulary of the statements *)
(* ===================================================================== *)

(** The text that follows a number does not go on with a digit. *)
Definition noDigitAhead (rest : jsstring) : Prop :=
  match rest with
  | c :: _ => isDigit c = false
  | [] => True
  end.

(** The states the page can be in: the constructor's, and what the events
    make of them. *)
Inductive reachable {host : Host} : TodoApp * Env -> Prop :=
| reachable_new (e : Env) (st : TodoApp * Env) :
    TodoApp_new e = Some st -> reachable st
| reachable_step (ev : Event) (st : TodoApp * Env) :
    reachable st -> reachable (step ev st).

(** Every row of the list belongs to a task of the collection. *)
Definition rowsAreTasks (app : TodoApp) : Prop :=
  forall s, In s (todoList_dataIds app) ->
            exists todo, In todo (todos app) /\ s = numberToString (id todo).

(** The first code unit of a JSON value. *)
Definition isValueStart (c : N) : bool :=
  ((c =? 110) || (c =? 116) || (c =? 102) || (c =? 45) || isDigit c
   || (c =? 34) || (c =? 91) || (c =? 123))%N.

(** The text of one member of an object, as [JSON_stringify] writes it. *)
Definition memberText (kv : jsstring * json) : jsstring :=
  let '(k, v) := kv in quoteJSONString k ++ 58%N :: JSON_stringify v.

#[global] Instance Task_eq_dec : EqDecision Task.
Proof. solve_decision. Defined.

Definition startsWith (p s : jsstring) : bool :=
  match stripPrefix p s with Some _ => true | None => false end.

(** The named character references that the serialiser writes: given the
    text after an ampersand, the character referred to and the length of the
    name with its semicolon. *)
Definition characterReference (r : jsstring) : option (N * nat) :=
  if startsWith (js "amp;") r then Some (38%N, 4%nat)
  else if startsWith (js "lt;") r then Some (60%N, 3%nat)
  else if startsWith (js "gt;") r then Some (62%N, 3%nat)
  else if startsWith (js "nbsp;") r then Some (160%N, 5%nat)
  else None.

(** The text that a piece of markup displays when it is nothing but text:
    characters and the four references above.  [None] when the markup has a
    [<], which could open a tag, or an ampersand that is not one of the four
    references. *)
Fixpoint textOfHtmlFrom (skip : nat) (s : jsstring) : option (jsstring) :=
  match s with
  | [] => match skip with O => Some [] | S _ => None end
  | c :: r =>
    match skip with
    | S k => textOfHtmlFrom k r
    | O =>
      if (c =? 60)%N then None
      else if (c =? 38)%N then
        match characterReference r with
        | Some (u, n) =>
          match textOfHtmlFrom n r with
          | Some t => Some (u :: t)
          | None => None
          end
        | None => None
        end
      else
        match textOfHtmlFrom 0 r with
        | Some t => Some (c :: t)
        | None => None
        end
    end
  end.

Definition textOfHtml (s : jsstring) : option (jsstring) := textOfHtmlFrom 0 s.

(** The stored text of the old format with two open tasks and a completed
    one, [{todo:[a,b],completed:[c]}] with its quotes, as [JSON.stringify]
    wrote it. *)
Definition legacyExample : jsstring :=
  JSON_stringify
    (JObj [(js "todo", JArr [JStr (js "a"); JStr (js "b")]);
           (js "completed", JArr [JStr (js "c")])]).

(* ===================================================================== *)
(** ** Concrete visits *)
(* ===================================================================== *)

(** A moment in November 2023, in milliseconds. *)
Definition loadTime : Z := 1700000000000.

(** First visit after the change of format: the old key holds
    [legacyExample], the whole start-up (eight clock readings: six in the
    migration, two in [render]) happens within the millisecond [loadTime],
    and the next thing the clock is asked is one second later. *)
Definition upgradeClock (n : nat) : Z :=
  if (n <? 8)%nat then loadTime else loadTime + 1000.

Definition upgradeEnv : Env :=
  envWith [("todoList"%string, legacyExample)] upgradeClock.

(** The same first visit under a clock that is set back by one millisecond
    after the first task of the migration has been made (its two readings
    are [loadTime], every later one is [loadTime - 1]). *)
Definition setBackClock (n : nat) : Z :=
  if (n <? 2)%nat then loadTime else loadTime - 1.

Definition setBackEnv : Env :=
  envWith [("todoList"%string, legacyExample)] setBackClock.

(** [s.includes(p)] *)
Fixpoint includes (p s : jsstring) : bool :=
  startsWith p s || match s with [] => false | _ :: r => includes p r end.

(** A visitor whose store holds one open task with a script element for
    text. *)
Definition scriptTask : Task :=
  {| id := 3; text := js "<script>alert(1)</script>"; completed := false;
     createdAt := utc_toISOString loadTime |}.

Definition scriptEnv : Env :=
  envWith [("todos"%string, JSON_stringify (todosToJson [scriptTask]))]
          (fixedClock loadTime).

(** The user types [d] and presses the add button. *)
Definition addD : list Event := [TypeText (js "d"); Add].

(** An old store with 1001 open tasks and a completed one, loaded while the
    clock stands still. *)
Definition legacyLong : jsstring :=
  JSON_stringify
    (JObj [(js "todo", JArr (repeat (JStr (js "x")) 1001));
           (js "completed", JArr [JStr (js "y")])]).

Definition longEnv : Env :=
  envWith [("todoList"%string, legacyLong)] (fixedClock loadTime).

(** A store in the current format with one open and one completed task. *)
Definition openTask : Task :=
  {| id := 1; text := js "write"; completed := false;
     createdAt := utc_toISOString loadTime |}.
Definition doneTask : Task :=
  {| id := 7; text := js "read"; completed := true;
     createdAt := utc_toISOString loadTime |}.

Definition returningEnv : Env :=
  envWith [("todos"%string, JSON_stringify (todosToJson [openTask; doneTask]))]
          (fixedClock (loadTime + 5000)).

(** The page of that store once constructed: section [all], so the row of
    [openTask] is displayed and [doneTask] has no row. *)
Definition returningPage : option (TodoApp * Env) :=
  TodoApp_new (host := utcHost) returningEnv.

Definition returningState : TodoApp * Env :=
  render (host := utcHost)
         {| todos := [openTask; doneTask];
            currentTheme := js "light";
            currentSection := js "all";
            todoInput_value := [];
            todoList_innerHTML := [];
            todoList_dataIds := [];
            stats_textContent := [] |}
         returningEnv.

(* ===================================================================== *)
(** ** The theme functions *)
(* ===================================================================== *)

(** The theme button as [updateThemeToggleIcon] sees it: for each of its two
    icons, [style.display] if the icon is in the page. *)
Record ThemeToggle : Type := {
  sunIcon : option jsstring;
  moonIcon : option jsstring
}.

(** What the theme functions write to: whether [document.body] has the class
    [dark-theme], the theme button if the page has one, and what was given
    to [console.error]. *)
Record ThemeView : Type := {
  body_darkTheme : bool;
  themeToggle : option ThemeToggle;
  console_error : list jsstring
}.

(** [applyTheme(theme)], lines 236-242. *)
Definition applyTheme (theme : jsstring) (v : ThemeView) : ThemeView :=
  if strEq theme (js "dark") then
    {| body_darkTheme := true; themeToggle := themeToggle v;
       console_error := console_error v |}
  else
    {| body_darkTheme := false; themeToggle := themeToggle v;
       console_error := console_error v |}.

(** [updateThemeToggleIcon()], lines 244-262, for a given value of
    [this.currentTheme]. *)
Definition updateThemeToggleIcon (theme : jsstring) (v : ThemeView) : ThemeView :=
  match themeToggle v with
  | None => v
  | Some button =>
    match sunIcon button, moonIcon button with
    | Some _, Some _ =>
      if strEq theme (js "dark") then
        {| body_darkTheme := body_darkTheme v;
           themeToggle := Some {| sunIcon := Some (js "none");
                                  moonIcon := Some (js "block") |};
           console_error := console_error v |}
      else
        {| body_darkTheme := body_darkTheme v;
           themeToggle := Some {| sunIcon := Some (js "block");
                                  moonIcon := Some (js "none") |};
           console_error := console_error v |}
    | _, _ =>
      {| body_darkTheme := body_darkTheme v;
         themeToggle := themeToggle v;
         console_error := console_error v ++ [js "Theme toggle icons not found"] |}
    end
  end.

(** The first two lines of [init()]: the loaded theme is shown. *)
Definition initTheme (app : TodoApp) (v : ThemeView) : ThemeView :=
  updateThemeToggleIcon (currentTheme app) (applyTheme (currentTheme app) v).

(** [toggleTheme()] on the page elements (lines 231-232); what it does to
    the object and the storage is [toggleTheme] above. *)
Definition toggleThemeView (app : TodoApp) (e : Env) (v : ThemeView) : ThemeView :=
  initTheme (fst (toggleTheme app e)) v.

(* ===================================================================== *)
(** ** Vocabulary of the further statements *)
(* ===================================================================== *)

(** The environment after [n] more readings of the clock. *)
Definition afterReadings (n : nat) (e : Env) : Env :=
  {| localStorage := localStorage e; timeline := timeline e;
     readings := (n + readings e)%nat; timeouts := timeouts e |}.

(** The stored text [s] is the old format with the open tasks [open] and
    the completed tasks [done]. *)
Definition isLegacy (s : jsstring) (open done : list jsstring) : Prop :=
  exists j, JSON_parse s = Some j /\ legacyOfJson j = Some (open, done).

(** The tasks that the migration makes of a list of texts, when the first
    of them reads the clock at its reading number [reading] and has the array
    index [index]; [offset] is 0 for the open tasks and 1000 for the
    completed ones. *)
Fixpoint migratedFrom {host : Host} (done : bool) (offset : Z) (clock : nat -> Z)
    (reading : nat) (index : Z) (texts : list jsstring) : list Task :=
  match texts with
  | [] => []
  | t :: rest =>
    {| id := clock reading + offset + index;
       text := t;
       completed := done;
       createdAt := toISOString (clock (S reading)) |}
    :: migratedFrom done offset clock (S (S reading)) (index + 1) rest
  end.

(** The test that a section other than [today] applies to a task. *)
Definition keptIn (section : jsstring) (todo : Task) : bool :=
  if strEq section (js "completed") then completed todo
  else negb (completed todo).

(** The time zone is fixed and the clock has not passed midnight between
    two readings: both give the same date string. *)
Definition sameDay {host : Host} (t1 t2 : Z) : Prop :=
  toDateString t1 = toDateString t2.

(** A string of white space only, the empty string included. *)
Definition blank (s : jsstring) : Prop :=
  forall c, In c s -> isWhiteSpace c = true.

(** A theme view whose button has both icons, not yet styled. *)
Definition freshThemeView : ThemeView :=
  {| body_darkTheme := false;
     themeToggle := Some {| sunIcon := Some []; moonIcon := Some [] |};
     console_error := [] |}.

(** A page with no task, before its first [render]. *)
Definition blankPage : TodoApp :=
  {| todos := [];
     currentTheme := js "light";
     currentSection := js "completed";
     todoInput_value := [];
     todoList_innerHTML := [];
     todoList_dataIds := [];
     stats_textContent := [] |}.

(** The returning visitor has typed a new task. *)
Definition typedState : TodoApp * Env :=
  step (host := utcHost) (TypeText (js " call ")) returningState.

(* ===================================================================== *)
(** * Properties *)
(* ===================================================================== *)

(** ** [JSON.parse] reads back what [JSON.stringify] writes *)

(** Case analysis on one comparison of code units in the goal. *)
Ltac unit_case :=
  match goal with
  | |- context [(?a =? ?b)%N] => destruct (N.eqb_spec a b)
  | |- context [(?a <=? ?b)%N] => destruct (N.leb_spec a b)
  | |- context [(?a <? ?b)%N] => destruct (N.ltb_spec a b)
  end.

Ltac unit_cases := repeat (unit_case; cbn [andb orb negb]; try lia; subst).

Lemma hexValue_hexDigit (n : N) :
  (n < 16)%N -> hexValue (hexDigit n) = Some n.
Proof.
  intros Hn. unfold hexValue, hexDigit.
  destruct (N.ltb_spec n 10); unit_cases; f_equal; lia.
Qed.

Lemma fromHex4_hex4 (c : N) :
  (c < 65536)%N ->
  fromHex4 (hexDigit ((c / 4096) mod 16)) (hexDigit ((c / 256) mod 16))
           (hexDigit ((c / 16) mod 16)) (hexDigit (c mod 16)) = Some c.
Proof.
  intros Hc. unfold fromHex4.
  rewrite !hexValue_hexDigit by (apply N.mod_lt; lia).
  f_equal.
  pose proof (N.Div0.div_mod c 16) as H1.
  pose proof (N.Div0.div_mod (c / 16) 16) as H2.
  pose proof (N.Div0.div_mod (c / 256) 16) as H3.
  rewrite N.Div0.div_div in H2. change (16 * 16)%N with 256%N in H2.
  rewrite N.Div0.div_div in H3. change (256 * 16)%N with 4096%N in H3.
  assert (c / 4096 < 16)%N as H4 by (apply N.Div0.div_lt_upper_bound; lia).
  rewrite (N.mod_small (c / 4096) 16) by exact H4. lia.
Qed.

Lemma parseStringBody_plain (c : N) (t : jsstring) :
  c <> 34%N -> c <> 92%N -> (32 <= c)%N ->
  parseStringBody (c :: t) =
  match parseStringBody t with
  | Some (t', rest) => Some (c :: t', rest)
  | None => None
  end.
Proof. intros H1 H2 H3. simpl. unit_cases. reflexivity. Qed.

Lemma parseStringBody_unicodeEscape (c : N) (t : jsstring) :
  (c < 65536)%N ->
  parseStringBody (unicodeEscape c ++ t) =
  match parseStringBody t with
  | Some (t', rest) => Some (c :: t', rest)
  | None => None
  end.
Proof.
  intros Hc. unfold unicodeEscape, hex4.
  cbn [app parseStringBody N.eqb Pos.eqb].
  rewrite fromHex4_hex4 by exact Hc.
  destruct (parseStringBody t) as [[t' rest]|]; reflexivity.
Qed.

Lemma parseStringBody_quoteUnit (c : N) (t : jsstring) :
  parseStringBody (quoteUnit c ++ t) =
  match parseStringBody t with
  | Some (t', rest) => Some (c :: t', rest)
  | None => None
  end.
Proof.
  unfold quoteUnit.
  repeat (unit_case; [subst; reflexivity|]).
  unit_case.
  - apply parseStringBody_unicodeEscape. lia.
  - apply parseStringBody_plain; assumption.
Qed.

Lemma isLeadSurrogate_range (c : N) :
  isLeadSurrogate c = true -> (55296 <= c <= 56319)%N.
Proof.
  unfold isLeadSurrogate. intros H. apply andb_true_iff in H.
  destruct H as [H1 H2]. apply N.leb_le in H1, H2. lia.
Qed.

Lemma isTrailSurrogate_range (c : N) :
  isTrailSurrogate c = true -> (56320 <= c <= 57343)%N.
Proof.
  unfold isTrailSurrogate. intros H. apply andb_true_iff in H.
  destruct H as [H1 H2]. apply N.leb_le in H1, H2. lia.
Qed.

Lemma parseStringBody_quoteBody (s rest : jsstring) :
  parseStringBody (quoteBody s ++ 34%N :: rest) = Some (s, rest).
Proof.
  remember (length s) as n eqn:Hn. revert s Hn.
  induction n as [n IH] using lt_wf_ind. intros s Hn.
  destruct s as [|c r]; [reflexivity|].
  cbn [quoteBody].
  destruct (isLeadSurrogate c) eqn:Hlead.
  - apply isLeadSurrogate_range in Hlead.
    destruct r as [|d r'].
    + rewrite parseStringBody_unicodeEscape by lia. reflexivity.
    + destruct (isTrailSurrogate d) eqn:Htrail.
      * apply isTrailSurrogate_range in Htrail.
        cbn [app].
        rewrite parseStringBody_plain by lia.
        rewrite parseStringBody_plain by lia.
        rewrite (IH (length r')) by (subst n; simpl; lia || reflexivity).
        reflexivity.
      * rewrite <- app_assoc, parseStringBody_unicodeEscape by lia.
        rewrite (IH (length (d :: r'))) by (subst n; simpl; lia || reflexivity).
        reflexivity.
  - destruct (isTrailSurrogate c) eqn:Htrail.
    + apply isTrailSurrogate_range in Htrail.
      rewrite <- app_assoc, parseStringBody_unicodeEscape by lia.
      rewrite (IH (length r)) by (subst n; simpl; lia || reflexivity).
      reflexivity.
    + rewrite <- app_assoc, parseStringBody_quoteUnit.
      rewrite (IH (length r)) by (subst n; simpl; lia || reflexivity).
      reflexivity.
Qed.

Lemma parseDigits_digits (u : Decimal.uint) (rest : jsstring) :
  noDigitAhead rest -> parseDigits (digits u ++ rest) = (u, rest).
Proof.
  intros Hrest.
  induction u; cbn [digits app parseDigits];
    try (rewrite IHu; reflexivity).
  destruct rest as [|c r]; [reflexivity|].
  cbn [parseDigits]. simpl in Hrest. rewrite Hrest. reflexivity.
Qed.

(** [Z.to_int] writes no leading zero and never the empty numeral. *)
Lemma to_int_normal (z : Z) : norm (Z.to_int z) = Z.to_int z.
Proof. rewrite <- DecimalZ.to_of, DecimalZ.of_to. reflexivity. Qed.

Lemma nzhead_fixed_no_D0 (u v : Decimal.uint) : nzhead u = u -> u <> D0 v.
Proof. intros H Hu. apply (nzhead_nonzero u v). congruence. Qed.

Lemma unorm_fixed (u : Decimal.uint) :
  unorm u = u -> u = D0 Nil \/ (u <> Nil /\ forall v, u <> D0 v).
Proof.
  intros H. unfold unorm in H.
  destruct (nzhead u) eqn:Hnz; try (left; congruence);
    right; rewrite <- H; split; try discriminate;
    intros v Hv; apply (nzhead_nonzero u v); congruence.
Qed.

Lemma parseNumber_numberToString (z : Z) (rest : jsstring) :
  noDigitAhead rest ->
  parseNumber (numberToString z ++ rest) = Some (z, rest).
Proof.
  intros Hrest.
  pose proof (to_int_normal z) as Hnorm.
  pose proof (DecimalZ.of_to z) as Hof.
  unfold numberToString, parseNumber.
  destruct (Z.to_int z) as [u|u] eqn:Hz.
  - cbn [norm] in Hnorm. injection Hnorm as Hu.
    apply unorm_fixed in Hu.
    assert ((let '(negative, s1) :=
               match digits u ++ rest with
               | c :: r => if (c =? 45)%N then (true, r) else (false, digits u ++ rest)
               | [] => (false, digits u ++ rest)
               end in
             (negative, s1)) = (false, digits u ++ rest)) as Hsign.
    { destruct u; cbn [digits app]; try reflexivity.
      destruct rest as [|c r]; [reflexivity|].
      destruct Hu as [Hu|[Hu _]]; congruence. }
    destruct (match digits u ++ rest with
              | c :: r => if (c =? 45)%N then (true, r) else (false, digits u ++ rest)
              | [] => (false, digits u ++ rest)
              end) as [negative s1].
    injection Hsign as -> ->.
    rewrite parseDigits_digits by exact Hrest.
    destruct Hu as [->|[Hnil Hzero]]; [rewrite <- Hof; reflexivity|].
    destruct u as [|u'|u'|u'|u'|u'|u'|u'|u'|u'|u']; try congruence;
      try (rewrite <- Hof; reflexivity).
  - assert (u <> Nil /\ forall v, u <> D0 v) as [Hnil Hzero].
    { cbn [norm] in Hnorm.
      destruct (nzhead u) eqn:Hnz; try discriminate;
        injection Hnorm as Hu; rewrite <- Hu; split; try discriminate;
        intros v Hv; apply (nzhead_nonzero u v); congruence. }
    cbn [app N.eqb Pos.eqb].
    rewrite parseDigits_digits by exact Hrest.
    destruct u as [|u'|u'|u'|u'|u'|u'|u'|u'|u'|u']; try congruence;
      try (rewrite <- Hof; reflexivity).
Qed.

Lemma numberToString_start (z : Z) :
  exists c t, numberToString z = c :: t /\ (c = 45%N \/ isDigit c = true).
Proof.
  pose proof (to_int_normal z) as Hnorm.
  unfold numberToString.
  destruct (Z.to_int z) as [u|u]; [|eauto].
  cbn [norm] in Hnorm. injection Hnorm as Hu.
  pose proof (unorm_nonnil u) as Hnil. rewrite Hu in Hnil.
  destruct u; try congruence; cbn [digits]; eauto.
Qed.

Lemma isValueStart_facts (c : N) :
  isValueStart c = true ->
  isJsonSpace c = false /\ c <> 93%N /\ c <> 125%N /\ c <> 44%N.
Proof.
  unfold isValueStart, isJsonSpace, isDigit. intros H.
  repeat split; revert H; unit_cases; try discriminate; try lia; auto.
Qed.

Lemma JSON_stringify_start (j : json) :
  exists c t, JSON_stringify j = c :: t /\ isValueStart c = true.
Proof.
  destruct j as [|[|]|n|s|l|m]; cbn [JSON_stringify]; try (do 2 eexists; split; reflexivity).
  destruct (numberToString_start n) as (c & t & -> & [->|Hd]); do 2 eexists; split; try reflexivity.
  unfold isValueStart. rewrite Hd. rewrite !orb_true_r. reflexivity.
Qed.

Lemma skipSpace_start (c : N) (t : jsstring) :
  isJsonSpace c = false -> skipSpace (c :: t) = c :: t.
Proof. intros H. cbn [skipSpace]. rewrite H. reflexivity. Qed.

Lemma parseValue_number (fuel : nat) (s : jsstring) :
  (exists c t, s = c :: t /\ (c = 45%N \/ isDigit c = true)) ->
  parseValue (S fuel) s =
  match parseNumber s with
  | Some (n, rest) => Some (JNum n, rest)
  | None => None
  end.
Proof.
  intros (c & t & -> & Hc).
  cbn [parseValue].
  assert (isJsonSpace c = false /\ c <> 34 /\ c <> 91 /\ c <> 123
          /\ c <> 110 /\ c <> 116 /\ c <> 102)%N
    as (Hs & H1 & H2 & H3 & H4 & H5 & H6).
  { destruct Hc as [->|Hd]; [repeat split; lia || reflexivity|].
    unfold isDigit in Hd. apply andb_true_iff in Hd. destruct Hd as [Ha Hb].
    apply N.leb_le in Ha, Hb. unfold isJsonSpace.
    repeat split; unit_cases; lia || reflexivity. }
  rewrite skipSpace_start by exact Hs.
  unit_cases. reflexivity.
Qed.

Lemma commaSep_cons2 (x y : jsstring) (r : list jsstring) :
  commaSep (x :: y :: r) = x ++ 44%N :: commaSep (y :: r).
Proof. reflexivity. Qed.

Lemma stringify_JObj (m : list (jsstring * json)) :
  JSON_stringify (JObj m) = 123%N :: commaSep (List.map memberText m) ++ [125%N].
Proof. reflexivity. Qed.

Lemma memberText_app (k : jsstring) (v : json) (t : jsstring) :
  memberText (k, v) ++ t
  = 34%N :: quoteBody k ++ 34%N :: 58%N :: JSON_stringify v ++ t.
Proof.
  unfold memberText, quoteJSONString. cbn [app].
  rewrite <- !app_assoc. reflexivity.
Qed.

Lemma memberText_length (k : jsstring) (v : json) :
  (length (JSON_stringify v) < length (memberText (k, v)))%nat.
Proof.
  unfold memberText, quoteJSONString. cbn [app length].
  rewrite !length_app. cbn [length]. lia.
Qed.

Lemma parse_stringify_fuel (fuel : nat) :
  (forall j rest,
      (length (JSON_stringify j) <= fuel)%nat -> noDigitAhead rest ->
      parseValue fuel (JSON_stringify j ++ rest) = Some (j, rest))
  /\ (forall l rest,
      l <> [] ->
      (length (commaSep (List.map JSON_stringify l)) < fuel)%nat ->
      parseElements fuel (commaSep (List.map JSON_stringify l) ++ 93%N :: rest)
      = Some (l, rest))
  /\ (forall m rest,
      m <> [] ->
      (length (commaSep (List.map memberText m)) < fuel)%nat ->
      parseMembers fuel (commaSep (List.map memberText m) ++ 125%N :: rest)
      = Some (m, rest)).
Proof.
  induction fuel as [|fuel (IHv & IHl & IHm)].
  - split; [|split; intros; lia].
    intros j rest Hlen _.
    destruct (JSON_stringify_start j) as (c & t & Hj & _).
    rewrite Hj in Hlen. simpl in Hlen. lia.
  - split; [|split].
    + intros j rest Hlen Hrest.
      destruct j as [|[|]|n|s|l|m]; try reflexivity.
      * cbn [JSON_stringify].
        rewrite parseValue_number.
        -- rewrite parseNumber_numberToString by exact Hrest. reflexivity.
        -- destruct (numberToString_start n) as (c & t & Hn & Hc).
           exists c, (t ++ rest). rewrite Hn. split; [reflexivity|exact Hc].
      * cbn [JSON_stringify quoteJSONString app parseValue skipSpace isJsonSpace N.eqb Pos.eqb orb].
        rewrite <- app_assoc. cbn [app].
        rewrite parseStringBody_quoteBody. reflexivity.
      * cbn [JSON_stringify] in *. cbn [app parseValue skipSpace isJsonSpace N.eqb Pos.eqb orb].
        rewrite <- app_assoc. cbn [app].
        destruct l as [|v l'].
        -- reflexivity.
        -- destruct (JSON_stringify_start v) as (c & t & Hv & Hc).
           apply isValueStart_facts in Hc. destruct Hc as (Hs & Hc1 & Hc2 & Hc3).
           assert (exists t', commaSep (List.map JSON_stringify (v :: l'))
                                ++ 93%N :: rest = c :: t') as [t' Ht'].
           { destruct l'; cbn [List.map commaSep]; rewrite Hv; eexists; reflexivity. }
           rewrite Ht', skipSpace_start by exact Hs.
           destruct (N.eqb_spec c 93); [contradiction|].
           rewrite <- Ht'.
           rewrite IHl; [reflexivity|discriminate|].
           cbn [length] in Hlen. rewrite length_app in Hlen. cbn [length] in Hlen. lia.
      * rewrite stringify_JObj in *. cbn [app parseValue skipSpace isJsonSpace N.eqb Pos.eqb orb].
        rewrite <- app_assoc. cbn [app].
        destruct m as [|[k v] m'].
        -- reflexivity.
        -- assert (exists t', commaSep (List.map memberText ((k, v) :: m'))
                                ++ 125%N :: rest = 34%N :: t') as [t' Ht'].
           { destruct m'; cbn [List.map commaSep memberText quoteJSONString app];
               eexists; reflexivity. }
           rewrite Ht'. cbn [skipSpace isJsonSpace N.eqb Pos.eqb orb].
           rewrite <- Ht'.
           rewrite IHm; [reflexivity|discriminate|].
           cbn [length] in Hlen. rewrite length_app in Hlen. cbn [length] in Hlen. lia.
    + intros l rest Hl Hlen.
      destruct l as [|v l']; [congruence|].
      cbn [parseElements].
      destruct l' as [|v' l''].
      * cbn [List.map commaSep] in *.
        rewrite IHv by (simpl; auto; lia).
        reflexivity.
      * cbn [List.map] in *. rewrite commaSep_cons2 in *.
        rewrite <- app_assoc. cbn [app].
        rewrite length_app in Hlen. cbn [length] in Hlen.
        rewrite IHv by (simpl; auto; lia).
        cbn [skipSpace isJsonSpace N.eqb Pos.eqb orb].
        change (JSON_stringify v' :: List.map JSON_stringify l'')
          with (List.map JSON_stringify (v' :: l'')) in *.
        rewrite IHl; [reflexivity|discriminate|lia].
    + intros m rest Hm Hlen.
      destruct m as [|[k v] m']; [congruence|].
      cbn [parseMembers].
      pose proof (memberText_length k v) as Hkv.
      destruct m' as [|kv' m''].
      * cbn [List.map commaSep] in *.
        rewrite memberText_app.
        cbn [skipSpace isJsonSpace N.eqb Pos.eqb orb].
        rewrite parseStringBody_quoteBody.
        cbn [skipSpace isJsonSpace N.eqb Pos.eqb orb].
        rewrite IHv by (simpl; auto; lia).
        reflexivity.
      * cbn [List.map] in *. rewrite commaSep_cons2 in *.
        rewrite <- app_assoc. cbn [app].
        rewrite memberText_app.
        rewrite length_app in Hlen. cbn [length] in Hlen.
        cbn [skipSpace isJsonSpace N.eqb Pos.eqb orb].
        rewrite parseStringBody_quoteBody.
        cbn [skipSpace isJsonSpace N.eqb Pos.eqb orb].
        rewrite IHv by (simpl; auto; lia).
        cbn [skipSpace isJsonSpace N.eqb Pos.eqb orb].
        change (memberText kv' :: List.map memberText m'')
          with (List.map memberText (kv' :: m'')) in *.
        rewrite IHm; [reflexivity|discriminate|lia].
Qed.

Theorem JSON_parse_stringify (j : json) :
  JSON_parse (JSON_stringify j) = Some j.
Proof.
  unfold JSON_parse.
  rewrite <- (app_nil_r (JSON_stringify j)) at 2.
  destruct (parse_stringify_fuel (S (length (JSON_stringify j)))) as [Hv _].
  rewrite Hv by (simpl; auto). reflexivity.
Qed.


Lemma taskOfJson_taskToJson (t : Task) : taskOfJson (taskToJson t) = Some t.
Proof. destruct t. reflexivity. Qed.

Lemma todosOfJson_todosToJson (l : list Task) :
  todosOfJson (todosToJson l) = Some l.
Proof.
  unfold todosOfJson, todosToJson.
  induction l as [|t l IH]; [reflexivity|].
  cbn [List.map allSome]. rewrite taskOfJson_taskToJson, IH. reflexivity.
Qed.

Lemma truthy_stringify_todos (l : list Task) :
  truthy (JSON_stringify (todosToJson l)) = true.
Proof. reflexivity. Qed.


(** ** The methods of the page *)

Section PageProperties.
Context {host : Host}.

(** *** What [render] leaves alone *)

Lemma updateStats_frame (app : TodoApp) (e : Env) :
  todos (fst (updateStats app e)) = todos app
  /\ currentSection (fst (updateStats app e)) = currentSection app
  /\ todoInput_value (fst (updateStats app e)) = todoInput_value app
  /\ todoList_dataIds (fst (updateStats app e)) = todoList_dataIds app
  /\ localStorage (snd (updateStats app e)) = localStorage e
  /\ timeouts (snd (updateStats app e)) = timeouts e
  /\ timeline (snd (updateStats app e)) = timeline e
  /\ readings (snd (updateStats app e)) = S (readings e).
Proof. unfold updateStats, Date_now. cbn. repeat split; reflexivity. Qed.

Lemma getFilteredTodos_env (app : TodoApp) (e : Env) :
  localStorage (snd (getFilteredTodos app e)) = localStorage e
  /\ timeouts (snd (getFilteredTodos app e)) = timeouts e
  /\ timeline (snd (getFilteredTodos app e)) = timeline e
  /\ readings (snd (getFilteredTodos app e)) = S (readings e).
Proof. unfold getFilteredTodos, Date_now. cbn. repeat split; reflexivity. Qed.

Lemma render_frame (app : TodoApp) (e : Env) :
  todos (fst (render app e)) = todos app
  /\ currentSection (fst (render app e)) = currentSection app
  /\ todoInput_value (fst (render app e)) = todoInput_value app
  /\ localStorage (snd (render app e)) = localStorage e
  /\ timeouts (snd (render app e)) = timeouts e
  /\ timeline (snd (render app e)) = timeline e
  /\ readings (snd (render app e)) = S (S (readings e)).
Proof.
  unfold render.
  pose proof (getFilteredTodos_env app e) as (Hs & Ht & Hl & Hr).
  destruct (getFilteredTodos app e) as [filtered e1]. cbn [snd] in *.
  match goal with
  | |- context [updateStats ?a ?b] =>
    pose proof (updateStats_frame a b) as (H1 & H2 & H3 & _ & H5 & H6 & H7 & H8)
  end.
  rewrite H1, H2, H3, H5, H6, H7, H8, Hs, Ht, Hl, Hr.
  destruct (Nat.eqb (length filtered) 0); repeat split; reflexivity.
Qed.

Lemma render_todos (app : TodoApp) (e : Env) :
  todos (fst (render app e)) = todos app.
Proof. apply render_frame. Qed.

Lemma render_dataIds (app : TodoApp) (e : Env) :
  todoList_dataIds (fst (render app e))
  = List.map (fun todo => numberToString (id todo)) (fst (getFilteredTodos app e)).
Proof.
  unfold render.
  destruct (getFilteredTodos app e) as [filtered e1]. cbn [fst].
  match goal with
  | |- context [updateStats ?a ?b] =>
    pose proof (updateStats_frame a b) as (_ & _ & _ & H4 & _)
  end.
  rewrite H4.
  destruct filtered; reflexivity.
Qed.

(** *** Persistence *)

Lemma loadData_saveTodos (l : list Task) (e : Env) :
  loadData (saveTodos l e) = Some (l, saveTodos l e).
Proof.
  unfold loadData, getTruthy, getItem, saveTodos, setItem. cbn [localStorage].
  rewrite lookup_insert_eq, truthy_stringify_todos.
  rewrite JSON_parse_stringify, todosOfJson_todosToJson. reflexivity.
Qed.

(** C8.  Saving a collection and loading it again gives the same collection,
    task for task and in the same order, whatever the tasks hold and whatever
    else is stored; the load finds the current key and leaves the storage as
    the save wrote it. *)
Theorem save_then_loadData_round_trip (app : TodoApp) (e : Env) :
  loadData (save app e) = Some (todos app, save app e)
  /\ getItem "todos" (save app e) = Some (JSON_stringify (todosToJson (todos app))).
Proof.
  split.
  - apply loadData_saveTodos.
  - unfold save, saveTodos, getItem, setItem. cbn [localStorage].
    apply lookup_insert_eq.
Qed.

(** *** [toggleTodo] *)

Lemma toggleTodo_todos (i : Z) (app : TodoApp) (e : Env) :
  todos (fst (toggleTodo i app e))
  = List.map (fun todo => if id todo =? i then flipCompleted todo else todo) (todos app).
Proof. unfold toggleTodo. rewrite render_todos. reflexivity. Qed.

Lemma flipCompleted_involutive (todo : Task) :
  flipCompleted (flipCompleted todo) = todo.
Proof.
  destruct todo as [i t c d]. unfold flipCompleted. cbn.
  rewrite negb_involutive. reflexivity.
Qed.

(** C3.  [toggleTodo(i)] keeps the length and the order of the collection;
    at every position, a task whose id is [i] comes back with the same id,
    text and creation time and the opposite [completed], and any other task
    comes back as it was.  Toggling the same id a second time restores the
    collection. *)
Theorem toggleTodo_flips_matching_only (i : Z) (app : TodoApp) (e : Env) :
  let once := toggleTodo i app e in
  let twice := toggleTodo i (fst once) (snd once) in
  length (todos (fst once)) = length (todos app)
  /\ (forall (n : nat) (todo : Task),
        todos app !! n = Some todo ->
        exists todo',
          todos (fst once) !! n = Some todo'
          /\ id todo' = id todo
          /\ text todo' = text todo
          /\ createdAt todo' = createdAt todo
          /\ completed todo' =
             (if id todo =? i then negb (completed todo) else completed todo))
  /\ todos (fst twice) = todos app.
Proof.
  cbn zeta. rewrite !toggleTodo_todos. split; [|split].
  - apply length_map.
  - intros n todo Hn.
    exists (if id todo =? i then flipCompleted todo else todo). split.
    + change (List.map ?f ?l) with (f <$> l).
      rewrite list_lookup_fmap, Hn. reflexivity.
    + destruct (id todo =? i); repeat split; reflexivity.
  - rewrite List.map_map. rewrite <- (List.map_id (todos app)) at 2.
    apply List.map_ext. intros todo.
    destruct (id todo =? i) eqn:Hi.
    + cbn [flipCompleted id]. rewrite Hi. apply flipCompleted_involutive.
    + rewrite Hi. reflexivity.
Qed.

(** C4.  [toggleTodo(i)] with an id that no task of the collection carries
    leaves the collection equal to what it was. *)
Theorem toggleTodo_absent_id (i : Z) (app : TodoApp) (e : Env) :
  (forall todo, In todo (todos app) -> id todo <> i) ->
  todos (fst (toggleTodo i app e)) = todos app.
Proof.
  intros Habsent. rewrite toggleTodo_todos.
  rewrite <- (List.map_id (todos app)) at 2.
  apply List.map_ext_in. intros todo Hin.
  destruct (Z.eqb_spec (id todo) i) as [Heq|_]; [|reflexivity].
  exfalso. exact (Habsent todo Hin Heq).
Qed.

(** *** [getFilteredTodos] *)

Lemma strEq_true (a b : jsstring) : strEq a b = true <-> a = b.
Proof. unfold strEq. apply bool_decide_eq_true. Qed.

Lemma strEq_refl (a : jsstring) : strEq a a = true.
Proof. apply strEq_true. reflexivity. Qed.

Lemma strEq_false (a b : jsstring) : a <> b -> strEq a b = false.
Proof. unfold strEq. apply bool_decide_eq_false. Qed.

Lemma filter_sublist {A : Type} (f : A -> bool) (l : list A) :
  sublist (List.filter f l) l.
Proof.
  induction l as [|x l IH]; cbn [List.filter].
  - constructor.
  - destruct (f x); constructor; exact IH.
Qed.

Lemma filter_count_occ (f : Task -> bool) (l : list Task) (todo : Task) :
  f todo = true ->
  count_occ Task_eq_dec (List.filter f l) todo = count_occ Task_eq_dec l todo.
Proof.
  intros Hf. induction l as [|x l IH]; [reflexivity|].
  cbn [List.filter count_occ].
  destruct (Task_eq_dec x todo) as [->|Hne].
  - rewrite Hf. cbn [count_occ].
    destruct (Task_eq_dec todo todo); congruence.
  - destruct (f x); [cbn [count_occ]; destruct (Task_eq_dec x todo); congruence|exact IH].
Qed.

(** The list that [getFilteredTodos] returns is one of three filters of
    [this.todos]. *)
Lemma getFilteredTodos_is_filter (app : TodoApp) (e : Env) :
  exists f : Task -> bool,
    fst (getFilteredTodos app e) = List.filter f (todos app).
Proof.
  unfold getFilteredTodos, Date_now. cbn [fst].
  destruct (strEq (currentSection app) (js "today")); [eauto|].
  destruct (strEq (currentSection app) (js "completed")); eauto.
Qed.

(** C6.  [getFilteredTodos] reads the collection and the section and changes
    neither (nor the storage): two pages with the same collection and
    section get the same list.  In section [all] the list has exactly the
    tasks that are not completed, in section [completed] exactly the
    completed ones, in section [today] exactly the tasks that are not
    completed and whose creation time has the date string of the current
    time; any other section name gives the list of [all]. *)
Theorem getFilteredTodos_sections (app : TodoApp) (e : Env) :
  let result := fst (getFilteredTodos app e) in
  let today := toDateString (timeline e (readings e)) in
  localStorage (snd (getFilteredTodos app e)) = localStorage e
  /\ todos (fst (render app e)) = todos app
  /\ (forall app', todos app' = todos app ->
                   currentSection app' = currentSection app ->
                   fst (getFilteredTodos app' e) = result)
  /\ (currentSection app = js "all" ->
      forall todo, In todo result <-> In todo (todos app) /\ completed todo = false)
  /\ (currentSection app = js "completed" ->
      forall todo, In todo result <-> In todo (todos app) /\ completed todo = true)
  /\ (currentSection app = js "today" ->
      forall todo, In todo result <->
                   In todo (todos app) /\ completed todo = false
                   /\ dateStringOf (createdAt todo) = today)
  /\ (currentSection app <> js "today" -> currentSection app <> js "completed" ->
      result = fst (getFilteredTodos (withSection (js "all") app) e)).
Proof.
  cbn zeta. split; [apply getFilteredTodos_env|].
  split; [apply render_todos|].
  unfold getFilteredTodos, Date_now. cbn [fst snd].
  split; [|split; [|split; [|split]]].
  - intros app' Ht Hs. rewrite Ht, Hs. reflexivity.
  - intros Hs todo. rewrite Hs. cbn [strEq]. 
    change (strEq (js "all") (js "today")) with false.
    change (strEq (js "all") (js "completed")) with false.
    cbn iota. rewrite filter_In, negb_true_iff. reflexivity.
  - intros Hs todo. rewrite Hs.
    change (strEq (js "completed") (js "today")) with false.
    rewrite strEq_refl. cbn iota. rewrite filter_In. reflexivity.
  - intros Hs todo. rewrite Hs, strEq_refl. cbn iota.
    rewrite filter_In. unfold isForToday.
    rewrite andb_true_iff, negb_true_iff, strEq_true. tauto.
  - intros H1 H2. cbn [withSection currentSection todos].
    rewrite (strEq_false _ _ H1), (strEq_false _ _ H2).
    change (strEq (js "all") (js "today")) with false.
    change (strEq (js "all") (js "completed")) with false.
    reflexivity.
Qed.

(** C10.  The list that [getFilteredTodos] returns is a subsequence of the
    collection: it is obtained by dropping tasks, so what is kept stays in
    order, and a task that is returned occurs in the list as many times as
    in the collection. *)
Theorem getFilteredTodos_subsequence (app : TodoApp) (e : Env) :
  let result := fst (getFilteredTodos app e) in
  sublist result (todos app)
  /\ (forall todo, In todo result ->
        count_occ Task_eq_dec result todo = count_occ Task_eq_dec (todos app) todo).
Proof.
  cbn zeta. destruct (getFilteredTodos_is_filter app e) as [f ->]. split.
  - apply filter_sublist.
  - intros todo Hin. apply filter_In in Hin. apply filter_count_occ, Hin.
Qed.

(** *** [escapeHtml] and the rows of [render] *)

Lemma escapeHtml_cons (c : N) (r : jsstring) :
  escapeHtml (c :: r) = escapeUnit c ++ escapeHtml r.
Proof. reflexivity. Qed.

Lemma textOfHtml_escapeUnit (c : N) (s : jsstring) :
  textOfHtmlFrom 0 (escapeUnit c ++ s) =
  match textOfHtmlFrom 0 s with
  | Some t => Some (c :: t)
  | None => None
  end.
Proof.
  unfold escapeUnit.
  repeat (unit_case; [subst; reflexivity|]).
  cbn [app textOfHtmlFrom]. unit_cases. reflexivity.
Qed.

Lemma escapeUnit_no_angle (c u : N) :
  In u (escapeUnit c) -> u <> 60%N /\ u <> 62%N.
Proof.
  unfold escapeUnit.
  repeat (unit_case;
          [cbn; intros H; repeat (destruct H as [<-|H]; [split; discriminate|]);
           destruct H|]).
  cbn. intros [<-|[]]. split; assumption.
Qed.

(** The markup that [render] assigns to the list: the empty-state template
    when the filtered list is empty, otherwise the rows of its tasks, one
    after the other. *)
Lemma render_innerHTML (app : TodoApp) (e : Env) :
  todoList_innerHTML (fst (render app e))
  = if Nat.eqb (length (fst (getFilteredTodos app e))) 0
    then renderEmpty (currentSection app)
    else concat (List.map renderItem (fst (getFilteredTodos app e))).
Proof.
  unfold render.
  destruct (getFilteredTodos app e) as [filtered e1]. cbn [fst].
  unfold updateStats, Date_now.
  destruct (Nat.eqb (length filtered) 0); reflexivity.
Qed.

Lemma escapeHtml_inert (stored : jsstring) :
  (forall u, In u (escapeHtml stored) -> u <> 60%N /\ u <> 62%N)
  /\ textOfHtml (escapeHtml stored) = Some stored.
Proof.
  split.
  - induction stored as [|c r IH]; [intros u Hu; cbn in Hu; contradiction|].
    intros u Hu. rewrite escapeHtml_cons in Hu. apply in_app_or in Hu.
    destruct Hu as [Hu|Hu]; [exact (escapeUnit_no_angle c u Hu)|exact (IH u Hu)].
  - unfold textOfHtml.
    induction stored as [|c r IH]; [reflexivity|].
    rewrite escapeHtml_cons, textOfHtml_escapeUnit, IH. reflexivity.
Qed.

(** C9.  What [render] puts in the page escapes the text of every task.
    There are a start and an end of a row, depending on the [completed] flag
    and the id of a task only, such that the markup [render] assigns to the
    list, when there is a task to show, is for each task of the filtered
    list in turn the start of its row, its text passed through
    [escapeHtml], and the end of its row, and nothing else; with no task to
    show it is the empty-state template, which has no task text.  And
    whatever a stored text is, with [<script>] or anything else in it, the
    escaped text contains neither [<] nor [>], and read as markup it is plain
    text that displays the stored text. *)
Theorem render_escapes_task_text (app : TodoApp) (e : Env) :
  exists rowStart rowEnd : bool -> Z -> jsstring,
    (forall todo,
        renderItem todo
        = rowStart (completed todo) (id todo)
          ++ escapeHtml (text todo)
          ++ rowEnd (completed todo) (id todo))
    /\ (fst (getFilteredTodos app e) <> [] ->
        todoList_innerHTML (fst (render app e))
        = concat (List.map
                    (fun todo => rowStart (completed todo) (id todo)
                                 ++ escapeHtml (text todo)
                                 ++ rowEnd (completed todo) (id todo))
                    (fst (getFilteredTodos app e))))
    /\ (fst (getFilteredTodos app e) = [] ->
        todoList_innerHTML (fst (render app e)) = renderEmpty (currentSection app))
    /\ (forall stored,
          (forall u, In u (escapeHtml stored) -> u <> 60%N /\ u <> 62%N)
          /\ textOfHtml (escapeHtml stored) = Some stored).
Proof.
  exists (fun (c : bool) (i : Z) =>
      nl 8 ++ js "<div class=" ++ dq ++ js "todo-item "
           ++ (if c then js "completed" else []) ++ dq
           ++ js " data-id=" ++ dq ++ numberToString i ++ dq ++ js ">"
      ++ nl 10 ++ js "<div class=" ++ dq ++ js "todo-checkbox "
           ++ (if c then js "checked" else []) ++ dq ++ js " "
      ++ nl 15 ++ js "onclick=" ++ dq ++ js "app.toggleTodo("
           ++ numberToString i ++ js ")" ++ dq ++ js ">"
      ++ nl 12 ++ (if c then [10003%N] else [])
      ++ nl 10 ++ js "</div>"
      ++ nl 10 ++ js "<div class=" ++ dq ++ js "todo-text" ++ dq ++ js ">").
  exists (fun (_ : bool) (i : Z) =>
      js "</div>"
      ++ nl 10 ++ js "<button class=" ++ dq ++ js "delete-btn" ++ dq
           ++ js " onclick=" ++ dq ++ js "app.deleteTodo("
           ++ numberToString i ++ js ")" ++ dq ++ js ">"
      ++ nl 12 ++ [10005%N]
      ++ nl 10 ++ js "</button>"
      ++ nl 8 ++ js "</div>"
      ++ nl 6).
  assert (forall todo,
             renderItem todo
             = (nl 8 ++ js "<div class=" ++ dq ++ js "todo-item "
                  ++ (if completed todo then js "completed" else []) ++ dq
                  ++ js " data-id=" ++ dq ++ numberToString (id todo) ++ dq ++ js ">"
                ++ nl 10 ++ js "<div class=" ++ dq ++ js "todo-checkbox "
                  ++ (if completed todo then js "checked" else []) ++ dq ++ js " "
                ++ nl 15 ++ js "onclick=" ++ dq ++ js "app.toggleTodo("
                  ++ numberToString (id todo) ++ js ")" ++ dq ++ js ">"
                ++ nl 12 ++ (if completed todo then [10003%N] else [])
                ++ nl 10 ++ js "</div>"
                ++ nl 10 ++ js "<div class=" ++ dq ++ js "todo-text" ++ dq ++ js ">")
               ++ escapeHtml (text todo)
               ++ (js "</div>"
                   ++ nl 10 ++ js "<button class=" ++ dq ++ js "delete-btn" ++ dq
                     ++ js " onclick=" ++ dq ++ js "app.deleteTodo("
                     ++ numberToString (id todo) ++ js ")" ++ dq ++ js ">"
                   ++ nl 12 ++ [10005%N]
                   ++ nl 10 ++ js "</button>"
                   ++ nl 8 ++ js "</div>"
                   ++ nl 6)) as Hrow.
  { intros todo. unfold renderItem. rewrite <- !app_assoc. reflexivity. }
  split; [exact Hrow|]. split; [|split].
  - intros Hshown. rewrite render_innerHTML.
    destruct (fst (getFilteredTodos app e)) as [|todo rest]; [congruence|].
    cbn [length Nat.eqb]. f_equal. apply List.map_ext. exact Hrow.
  - intros Hnone. rewrite render_innerHTML, Hnone. reflexivity.
  - exact escapeHtml_inert.
Qed.

(** *** [deleteTodo] *)

Lemma digits_inj (u v : Decimal.uint) : digits u = digits v -> u = v.
Proof.
  revert v. induction u; intros v H; destruct v; cbn [digits] in H;
    try discriminate; try reflexivity;
    injection H as H; f_equal; apply IHu; exact H.
Qed.

Lemma digits_not_minus (u : Decimal.uint) (t : jsstring) : digits u <> 45%N :: t.
Proof. destruct u; cbn [digits]; discriminate. Qed.

Lemma numberToString_inj (a b : Z) :
  numberToString a = numberToString b -> a = b.
Proof.
  unfold numberToString. intros H. apply DecimalZ.to_int_inj.
  destruct (Z.to_int a) as [u|u], (Z.to_int b) as [v|v].
  - f_equal. apply digits_inj, H.
  - exfalso. exact (digits_not_minus _ _ H).
  - exfalso. symmetry in H. exact (digits_not_minus _ _ H).
  - injection H as H. f_equal. apply digits_inj, H.
Qed.

(** After [render], the rows in the page are the tasks of the filtered
    list: a row with [data-id] [i] is there exactly when the list has a task
    with id [i]. *)
Lemma render_row_displayed (i : Z) (app : TodoApp) (e : Env) :
  In (numberToString i) (todoList_dataIds (fst (render app e)))
  <-> exists todo, In todo (fst (getFilteredTodos app e)) /\ id todo = i.
Proof.
  rewrite render_dataIds, in_map_iff. split.
  - intros (todo & Heq & Hin). exists todo. split; [exact Hin|].
    apply numberToString_inj, Heq.
  - intros (todo & Hin & <-). exists todo. split; [reflexivity|exact Hin].
Qed.

Lemma deleteCallback_todos (i : Z) (app : TodoApp) (e : Env) :
  todos (fst (deleteCallback i app e))
  = List.filter (fun todo => negb (id todo =? i)) (todos app).
Proof. unfold deleteCallback. rewrite render_todos. reflexivity. Qed.

Lemma deleteCallback_storage (i : Z) (app : TodoApp) (e : Env) :
  getItem "todos" (snd (deleteCallback i app e))
  = Some (JSON_stringify (todosToJson (todos (fst (deleteCallback i app e))))).
Proof.
  rewrite deleteCallback_todos. unfold deleteCallback, getItem.
  match goal with
  | |- context [render ?a ?b] =>
    pose proof (render_frame a b) as (_ & _ & _ & Hs & _)
  end.
  rewrite Hs. unfold save, saveTodos, setItem. cbn [localStorage todos withTodos].
  apply lookup_insert_eq.
Qed.

Lemma filter_keeps_all {A : Type} (f : A -> bool) (l : list A) :
  (forall x, In x l -> f x = true) -> List.filter f l = l.
Proof.
  induction l as [|x l IH]; intros H; [reflexivity|].
  cbn [List.filter]. rewrite (H x (or_introl eq_refl)).
  f_equal. apply IH. intros y Hy. apply H. right. exact Hy.
Qed.

Lemma filter_other_ids_absent (i : Z) (l : list Task) :
  ~ In i (List.map id l) ->
  List.filter (fun todo => negb (id todo =? i)) l = l.
Proof.
  intros Hi. apply filter_keeps_all. intros todo Hin.
  apply negb_true_iff, Z.eqb_neq. intros Heq. apply Hi.
  rewrite <- Heq. apply in_map, Hin.
Qed.

(** With distinct ids, filtering out id [i] takes out one task, in place. *)
Lemma filter_other_ids_split (i : Z) (l : list Task) :
  NoDup (List.map id l) -> In i (List.map id l) ->
  exists l1 todo l2,
    l = l1 ++ todo :: l2 /\ id todo = i
    /\ List.filter (fun todo => negb (id todo =? i)) l = l1 ++ l2.
Proof.
  intros Hnd Hin. apply in_map_iff in Hin. destruct Hin as (todo & Hid & Hin).
  apply in_split in Hin. destruct Hin as (l1 & l2 & ->).
  exists l1, todo, l2. split; [reflexivity|]. split; [exact Hid|].
  rewrite List.map_app in Hnd. cbn [List.map] in Hnd. rewrite Hid in Hnd.
  apply NoDup_app in Hnd. destruct Hnd as (_ & Hleft & Hright).
  apply NoDup_cons in Hright. destruct Hright as [Hright _].
  rewrite List.filter_app. cbn [List.filter].
  rewrite Hid, Z.eqb_refl. cbn [negb].
  rewrite !filter_other_ids_absent; [reflexivity| |]; intros H.
  - apply Hright, list_elem_of_In, H.
  - apply list_elem_of_In in H. apply (Hleft i H). constructor.
Qed.

(** C5, as the code has it.  With no other removal pending, [deleteTodo(i)]
    followed by the expiry of its timer acts on the collection only when a
    row with [data-id] [i] is displayed.  Then the tasks with id [i] are
    dropped, every other task stays as it was and in order, what is stored
    is the new collection, and where ids are distinct and [i] is present
    exactly one task goes.  When no row with that [data-id] is displayed,
    nothing changes at all, and for an id that no task carries the
    collection is unchanged either way. *)
Theorem deleteTodo_removes_displayed_task (i : Z) (app : TodoApp) (e : Env) :
  timeouts e = [] ->
  let after := run [Delete i; TimerExpires] (app, e) in
  (In (numberToString i) (todoList_dataIds app) ->
     deleteTodo i app e = (app, setTimeout i e)
     /\ sublist (todos (fst after)) (todos app)
     /\ (forall todo, In todo (todos (fst after))
                      <-> In todo (todos app) /\ id todo <> i)
     /\ (forall todo, id todo <> i ->
           count_occ Task_eq_dec (todos (fst after)) todo
           = count_occ Task_eq_dec (todos app) todo)
     /\ (NoDup (List.map id (todos app)) -> In i (List.map id (todos app)) ->
         exists l1 todo l2,
           todos app = l1 ++ todo :: l2 /\ id todo = i
           /\ todos (fst after) = l1 ++ l2)
     /\ getItem "todos" (snd after)
        = Some (JSON_stringify (todosToJson (todos (fst after)))))
  /\ (~ In (numberToString i) (todoList_dataIds app) -> after = (app, e))
  /\ (~ In i (List.map id (todos app)) -> todos (fst after) = todos app).
Proof.
  intros Hno. cbn zeta. unfold run. cbn [fold_left step].
  unfold deleteTodo.
  destruct (bool_decide (numberToString i ∈ todoList_dataIds app)) eqn:Hrow.
  - apply bool_decide_eq_true, list_elem_of_In in Hrow.
    unfold setTimeout. cbn [step]. unfold fireTimeout. cbn [timeouts].
    rewrite Hno. cbn [Datatypes.app].
    split; [|split].
    + intros _. rewrite deleteCallback_storage, !deleteCallback_todos.
      split; [reflexivity|].
      split; [apply filter_sublist|].
      split; [|split; [|split]].
      * intros todo. rewrite filter_In, negb_true_iff, Z.eqb_neq. reflexivity.
      * intros todo Hne. apply filter_count_occ.
        apply negb_true_iff, Z.eqb_neq, Hne.
      * apply filter_other_ids_split.
      * reflexivity.
    + intros Hnot. contradiction.
    + intros Habsent. rewrite deleteCallback_todos.
      apply filter_other_ids_absent, Habsent.
  - apply bool_decide_eq_false in Hrow. rewrite list_elem_of_In in Hrow.
    cbn [step]. unfold fireTimeout. rewrite Hno.
    split; [|split].
    + intros Hin. contradiction.
    + reflexivity.
    + reflexivity.
Qed.

(** *** [addTodo] *)

(** What [addTodo] does to the collection: nothing when the input trims to
    the empty string; otherwise one task is put in front, with the trimmed
    text, not completed, the first clock reading as id and the second as
    creation time.  The id is new to the collection when that reading is. *)
Theorem addTodo_spec (app : TodoApp) (e : Env) :
  (trim (todoInput_value app) = [] -> addTodo app e = (app, e))
  /\ (trim (todoInput_value app) <> [] ->
      let todo := {| id := timeline e (readings e);
                     text := trim (todoInput_value app);
                     completed := false;
                     createdAt := toISOString (timeline e (S (readings e))) |} in
      todos (fst (addTodo app e)) = todo :: todos app
      /\ todoInput_value (fst (addTodo app e)) = []
      /\ getItem "todos" (snd (addTodo app e))
         = Some (JSON_stringify (todosToJson (todo :: todos app)))
      /\ (~ In (timeline e (readings e)) (List.map id (todos app)) ->
          NoDup (List.map id (todos app)) ->
          NoDup (List.map id (todos (fst (addTodo app e)))))).
Proof.
  unfold addTodo. split.
  - intros ->. reflexivity.
  - intros Hne. cbn zeta.
    destruct (trim (todoInput_value app)) as [|c r] eqn:Htrim; [congruence|].
    cbn [truthy negb]. unfold Date_now. cbn [timeline readings].
    match goal with
    | |- context [render ?a ?b] =>
      pose proof (render_frame a b) as (Ht & _ & Hi & Hs & _)
    end.
    rewrite Ht, Hi. unfold getItem. rewrite Hs.
    cbn [todos withInput withTodos todoInput_value save saveTodos setItem localStorage].
    split; [reflexivity|]. split; [reflexivity|].
    split; [apply lookup_insert_eq|].
    intros Hfresh Hnd. cbn [List.map id]. constructor; [|exact Hnd].
    rewrite list_elem_of_In. exact Hfresh.
Qed.

(** *** [loadData] *)

Lemma loadData_current_key (l : list Task) (e : Env) :
  getItem "todos" e = Some (JSON_stringify (todosToJson l)) ->
  loadData e = Some (l, e).
Proof.
  intros Hget. unfold loadData, getTruthy. rewrite Hget, truthy_stringify_todos.
  rewrite JSON_parse_stringify, todosOfJson_todosToJson. reflexivity.
Qed.

(** The migration of the example under a clock that does not run
    backwards.  The current key is absent and the old key holds two open
    tasks [a], [b] and a completed task [c].  Then [loadData] returns three
    tasks, [a] and [b] not completed and [c] completed, in that order; their
    ids are the clock readings plus 0, 1 and 1000, pairwise different under
    that clock; the old key is gone, the current key holds the three tasks,
    and loading again returns the same three tasks and changes nothing. *)
Lemma loadData_migrates_legacy_example (e : Env) :
  getItem "todos" e = None ->
  getItem "todoList" e = Some legacyExample ->
  (forall m n : nat, (m <= n)%nat -> timeline e m <= timeline e n) ->
  let clock (k : nat) := timeline e (k + readings e)%nat in
  let migrated :=
    [ {| id := clock 0%nat + 0; text := js "a"; completed := false;
         createdAt := toISOString (clock 1%nat) |};
      {| id := clock 2%nat + 1; text := js "b"; completed := false;
         createdAt := toISOString (clock 3%nat) |};
      {| id := clock 4%nat + 1000 + 0; text := js "c"; completed := true;
         createdAt := toISOString (clock 5%nat) |} ] in
  exists e1,
    loadData e = Some (migrated, e1)
    /\ length migrated = 3%nat
    /\ NoDup (List.map id migrated)
    /\ getItem "todoList" e1 = None
    /\ getItem "todos" e1 = Some (JSON_stringify (todosToJson migrated))
    /\ loadData e1 = Some (migrated, e1).
Proof.
  intros Hnew Hold Hclock. cbn zeta.
  unfold loadData at 1. unfold getTruthy. rewrite Hnew, Hold.
  change (truthy legacyExample) with true. cbn iota.
  unfold legacyExample at 1. rewrite JSON_parse_stringify.
  cbn [legacyOfJson getProp allSome stringOfJson bool_decide].
  change (legacyOfJson _) with
    (Some ([js "a"; js "b"], [js "c"])).
  cbn iota beta.
  cbn [forEach forEachFrom Date_now fst snd Datatypes.app timeline readings
       localStorage timeouts Z.add Pos.add Pos.succ].
  eexists. split; [reflexivity|].
  split; [reflexivity|].
  split; [|split; [|split]].
  - cbn [List.map id].
    pose proof (Hclock (readings e) (2 + readings e)%nat ltac:(lia)).
    pose proof (Hclock (2 + readings e)%nat (4 + readings e)%nat ltac:(lia)).
    change (0 + readings e)%nat with (readings e).
    repeat (apply NoDup_cons; split);
      [rewrite !elem_of_cons, elem_of_nil; lia
      |rewrite !elem_of_cons, elem_of_nil; lia
      |rewrite elem_of_nil; tauto
      |apply NoDup_nil; exact I].
  - unfold getItem, removeItem. cbn [localStorage]. apply lookup_delete_eq.
  - unfold getItem, removeItem, saveTodos, setItem. cbn [localStorage].
    rewrite lookup_delete_ne by discriminate. apply lookup_insert_eq.
  - apply loadData_current_key.
    unfold getItem, removeItem, saveTodos, setItem. cbn [localStorage].
    rewrite lookup_delete_ne by discriminate. apply lookup_insert_eq.
Qed.

(** *** The rows of the page and the ids of the collection over a visit *)

Lemma fireTimeout_oldest (i : Z) (rest : list Z) (app : TodoApp) (e : Env) :
  timeouts e = i :: rest ->
  todos (fst (fireTimeout app e))
  = List.filter (fun todo => negb (id todo =? i)) (todos app)
  /\ timeouts (snd (fireTimeout app e)) = rest.
Proof.
  intros Hq. unfold fireTimeout. rewrite Hq. split.
  - apply deleteCallback_todos.
  - unfold deleteCallback.
    match goal with
    | |- context [render ?a ?b] =>
      pose proof (render_frame a b) as (_ & _ & _ & _ & Ht & _)
    end.
    rewrite Ht. reflexivity.
Qed.

Lemma render_rowsAreTasks (app : TodoApp) (e : Env) :
  rowsAreTasks (fst (render app e)).
Proof.
  intros s Hs. rewrite render_dataIds in Hs. rewrite render_todos.
  apply in_map_iff in Hs. destruct Hs as (todo & <- & Hin).
  exists todo. split; [|reflexivity].
  destruct (getFilteredTodos_is_filter app e) as [f Hf].
  rewrite Hf in Hin. apply filter_In in Hin. apply Hin.
Qed.

Lemma step_rowsAreTasks (ev : Event) (st : TodoApp * Env) :
  rowsAreTasks (fst st) -> rowsAreTasks (fst (step ev st)).
Proof.
  destruct st as [app e]. intros Hinv.
  destruct ev as [s| |i|i|section| |]; cbn [step fst].
  - exact Hinv.
  - unfold addTodo. destruct (negb (truthy (trim (todoInput_value app)))).
    + exact Hinv.
    + unfold Date_now. apply render_rowsAreTasks.
  - apply render_rowsAreTasks.
  - unfold deleteTodo.
    destruct (bool_decide (numberToString i ∈ todoList_dataIds app)); exact Hinv.
  - apply render_rowsAreTasks.
  - exact Hinv.
  - unfold fireTimeout. destruct (timeouts e); [exact Hinv|].
    apply render_rowsAreTasks.
Qed.

(** In every state of a visit the rows shown belong to tasks of the
    collection, so a delete button can only name an id that is present. *)
Theorem reachable_rowsAreTasks (st : TodoApp * Env) :
  reachable st -> rowsAreTasks (fst st).
Proof.
  intros Hreach. induction Hreach as [e st Hnew|ev st _ IH].
  - unfold TodoApp_new in Hnew.
    destruct (loadData e) as [[l e1]|]; [|discriminate].
    injection Hnew as <-. apply render_rowsAreTasks.
  - apply step_rowsAreTasks, IH.
Qed.

Corollary reachable_row_has_task (i : Z) (st : TodoApp * Env) :
  reachable st ->
  In (numberToString i) (todoList_dataIds (fst st)) ->
  In i (List.map id (todos (fst st))).
Proof.
  intros Hreach Hrow.
  destruct (reachable_rowsAreTasks st Hreach _ Hrow) as (todo & Hin & Heq).
  apply numberToString_inj in Heq. subst i. apply in_map, Hin.
Qed.

Lemma sublist_NoDup_map (l k : list Task) :
  sublist l k -> NoDup (List.map id k) -> NoDup (List.map id l).
Proof.
  intros Hsub Hnd. refine (sublist_NoDup _ _ Hnd _).
  change (sublist (id <$> l) (id <$> k)).
  apply fmap_sublist, Hsub.
Qed.

(** Distinct ids stay distinct under every event, provided that when a task
    is added the clock reading used as its id is not an id already.  Adding
    is the one event that can spoil them. *)
Theorem step_keeps_ids_distinct (ev : Event) (st : TodoApp * Env) :
  NoDup (List.map id (todos (fst st))) ->
  (ev = Add ->
   ~ In (timeline (snd st) (readings (snd st))) (List.map id (todos (fst st)))) ->
  NoDup (List.map id (todos (fst (step ev st)))).
Proof.
  destruct st as [app e]. cbn [fst snd]. intros Hnd Hfresh.
  destruct ev as [s| |i|i|section| |]; cbn [step].
  - exact Hnd.
  - destruct (addTodo_spec app e) as [Hblank Hadd].
    destruct (trim (todoInput_value app)) as [|c r] eqn:Htrim.
    + rewrite (Hblank eq_refl). exact Hnd.
    + apply Hadd; [discriminate|apply Hfresh; reflexivity|exact Hnd].
  - rewrite toggleTodo_todos, List.map_map.
    erewrite List.map_ext; [exact Hnd|].
    intros todo. destruct (id todo =? i); reflexivity.
  - unfold deleteTodo.
    destruct (bool_decide (numberToString i ∈ todoList_dataIds app)); exact Hnd.
  - unfold switchSection. rewrite render_todos. exact Hnd.
  - exact Hnd.
  - unfold fireTimeout. destruct (timeouts e) as [|i rest]; [exact Hnd|].
    rewrite deleteCallback_todos.
    eapply sublist_NoDup_map; [apply filter_sublist|exact Hnd].
Qed.
End PageProperties.

(* ===================================================================== *)
(** * Concrete runs *)
(* ===================================================================== *)

(** The page of the returning visitor is [returningState]: the two stored
    tasks, one row (for the open task), no timer. *)
Lemma returningPage_constructed :
  returningPage = Some returningState
  /\ todos (fst returningState) = [openTask; doneTask]
  /\ todoList_dataIds (fst returningState) = [numberToString 1]
  /\ timeouts (snd returningState) = [].
Proof. vm_compute. repeat split; reflexivity. Qed.

(** The examples of the specification for [addTodo]: the text is trimmed,
    and an input of spaces changes nothing. *)
Example addTodo_buy_milk :
  List.map (fun todo => (text todo, completed todo))
           (todos (fst (run (host := utcHost)
                            [TypeText (js "  buy milk  "); Add] returningState)))
  = [(js "buy milk", false); (js "write", false); (js "read", true)].
Proof. vm_compute. reflexivity. Qed.

Example addTodo_blank :
  let typed := step (host := utcHost) (TypeText (js "   ")) returningState in
  step (host := utcHost) Add typed = typed.
Proof. vm_compute. reflexivity. Qed.

(** The stored text [<script>alert(1)</script>] on the page: the markup of
    the list has the escaped text and no script tag. *)
Example render_script_task :
  match TodoApp_new (host := utcHost) scriptEnv with
  | Some st =>
    todos (fst st) = [scriptTask]
    /\ includes (js "&lt;script&gt;alert(1)&lt;/script&gt;")
                (todoList_innerHTML (fst st)) = true
    /\ includes (js "<script") (todoList_innerHTML (fst st)) = false
  | None => False
  end.
Proof. vm_compute. repeat split; reflexivity. Qed.

(** ** Ids given twice *)

(** C1.  Ids are not kept distinct.  The old store [{todo:[a,b],
    completed:[c]}] is migrated at time [loadTime]: [a], [b], [c] get the ids
    [loadTime], [loadTime + 1], [loadTime + 1000].  One second later the user
    adds [d], which gets the id [loadTime + 1000] as well. *)
Theorem addTodo_reuses_migrated_id :
  match TodoApp_new (host := utcHost) upgradeEnv with
  | Some st =>
    List.map id (todos (fst st)) = [loadTime; loadTime + 1; loadTime + 1000]
    /\ NoDup (List.map id (todos (fst st)))
    /\ List.map id (todos (fst (run (host := utcHost) addD st)))
       = [loadTime + 1000; loadTime; loadTime + 1; loadTime + 1000]
    /\ ~ NoDup (List.map id (todos (fst (run (host := utcHost) addD st))))
  | None => False
  end.
Proof.
  vm_compute. split; [reflexivity|]. split; [|split; [reflexivity|]].
  - repeat (apply NoDup_cons; split);
      try (rewrite ?elem_of_cons, elem_of_nil; intros H; decompose [or] H;
           discriminate || contradiction).
    apply NoDup_nil. exact I.
  - intros H. apply NoDup_cons in H. destruct H as [H _]. apply H.
    rewrite !elem_of_cons. right. right. left. reflexivity.
Qed.

(** The same from the migration alone: with 1001 open tasks in the old
    store, the last of them and the first completed task both get the id
    [loadTime + 1000]. *)
Lemma long_migration_shares_an_id :
  option_map (fun loaded => (List.map id (fst loaded) !! 1000%nat,
                             List.map id (fst loaded) !! 1001%nat,
                             length (fst loaded)))
             (loadData (host := utcHost) longEnv)
  = Some (Some (loadTime + 1000), Some (loadTime + 1000), 1002%nat).
Proof. vm_compute. reflexivity. Qed.

(** C7.  The migration of [{todo:[a,b],completed:[c]}] does not always give
    distinct ids.  The current key is absent and the old key holds the
    example; the clock is set back by one millisecond between the making of
    [a] and of [b].  [loadData] returns the three tasks, [a] and [b] not
    completed and [c] completed, removes the old key, stores the collection
    and returns the same on a second load, all as it should; but [a] and [b]
    both have the id [loadTime], each being its own clock reading plus its
    index. *)
Theorem migration_ids_collide_when_clock_is_set_back :
  getItem "todos" setBackEnv = None
  /\ getItem "todoList" setBackEnv = Some legacyExample
  /\ match loadData (host := utcHost) setBackEnv with
     | Some (l, e1) =>
       List.map text l = [js "a"; js "b"; js "c"]
       /\ List.map completed l = [false; false; true]
       /\ List.map id l = [loadTime; loadTime; loadTime + 999]
       /\ ~ NoDup (List.map id l)
       /\ getItem "todoList" e1 = None
       /\ getItem "todos" e1 = Some (JSON_stringify (todosToJson l))
       /\ loadData (host := utcHost) e1 = Some (l, e1)
     | None => False
     end.
Proof.
  split; [reflexivity|]. split; [reflexivity|].
  vm_compute.
  split; [reflexivity|]. split; [reflexivity|]. split; [reflexivity|].
  split; [|repeat split; reflexivity].
  intros H. apply NoDup_cons in H. destruct H as [H _]. apply H.
  rewrite elem_of_cons. left. reflexivity.
Qed.

(** C2.  The id that [addTodo] gives is not always new.  In the visit above
    the task [d] is put in front of the three migrated tasks, trimmed and not
    completed as it should be, but its id is the id of [c]. *)
Theorem addTodo_id_not_fresh :
  match TodoApp_new (host := utcHost) upgradeEnv with
  | Some st =>
    exists added old,
      todos (fst (run (host := utcHost) addD st)) = added :: todos (fst st)
      /\ text added = js "d" /\ completed added = false
      /\ In old (todos (fst st)) /\ text old = js "c"
      /\ id added = id old
  | None => False
  end.
Proof.
  vm_compute. do 2 eexists. split; [reflexivity|].
  split; [reflexivity|]. split; [reflexivity|].
  split; [right; right; left; reflexivity|].
  split; reflexivity.
Qed.

(** ** Witnesses and counterexamples *)

Lemma toggleTodo_absent_id_witness :
  (forall todo, In todo (todos (fst returningState)) -> id todo <> 3)
  /\ todos (fst (toggleTodo (host := utcHost) 3
                            (fst returningState) (snd returningState)))
     = todos (fst returningState).
Proof.
  assert (forall todo, In todo (todos (fst returningState)) -> id todo <> 3) as H.
  { intros todo Hin. vm_compute in Hin.
    destruct Hin as [<-|[<-|[]]]; vm_compute; discriminate. }
  split; [exact H|].
  exact (toggleTodo_absent_id (host := utcHost) 3 _ _ H).
Defined.

(** C5 as stated fails: [doneTask] is in the collection, but in section
    [all] it has no row, so [deleteTodo(7)] sets no timer and the task is
    still there afterwards. *)
Lemma deleteTodo_hidden_task_stays :
  returningPage = Some returningState
  /\ timeouts (snd returningState) = []
  /\ In doneTask (todos (fst returningState))
  /\ id doneTask = 7
  /\ run (host := utcHost) [Delete 7; TimerExpires] returningState = returningState
  /\ In doneTask
        (todos (fst (run (host := utcHost) [Delete 7; TimerExpires] returningState))).
Proof.
  vm_compute. repeat split; try reflexivity; right; left; reflexivity.
Qed.

Lemma deleteTodo_removes_displayed_task_witness :
  timeouts (snd returningState) = []
  /\ In (numberToString 1) (todoList_dataIds (fst returningState))
  /\ (forall todo,
        In todo (todos (fst (run (host := utcHost) [Delete 1; TimerExpires]
                                 (fst returningState, snd returningState))))
        <-> In todo (todos (fst returningState)) /\ id todo <> 1).
Proof.
  assert (timeouts (snd returningState) = []) as Hno by reflexivity.
  assert (In (numberToString 1) (todoList_dataIds (fst returningState))) as Hrow
    by (vm_compute; left; reflexivity).
  split; [exact Hno|]. split; [exact Hrow|].
  destruct (deleteTodo_removes_displayed_task (host := utcHost) 1
              (fst returningState) (snd returningState) Hno) as [Hshown _].
  destruct (Hshown Hrow) as (_ & _ & Hmem & _).
  exact Hmem.
Defined.

Lemma upgradeClock_monotone (m n : nat) :
  (m <= n)%nat -> upgradeClock m <= upgradeClock n.
Proof.
  intros Hmn. unfold upgradeClock, loadTime.
  destruct (Nat.ltb_spec m 8), (Nat.ltb_spec n 8); lia.
Defined.

Lemma loadData_migrates_legacy_example_witness :
  getItem "todos" upgradeEnv = None
  /\ getItem "todoList" upgradeEnv = Some legacyExample
  /\ (forall m n : nat, (m <= n)%nat -> upgradeClock m <= upgradeClock n)
  /\ exists l e1,
       loadData (host := utcHost) upgradeEnv = Some (l, e1)
       /\ List.map id l = [loadTime; loadTime + 1; loadTime + 1000]
       /\ NoDup (List.map id l)
       /\ getItem "todoList" e1 = None
       /\ loadData (host := utcHost) e1 = Some (l, e1).
Proof.
  assert (getItem "todos" upgradeEnv = None) as Hnew by reflexivity.
  assert (getItem "todoList" upgradeEnv = Some legacyExample) as Hold by reflexivity.
  split; [exact Hnew|]. split; [exact Hold|].
  split; [exact upgradeClock_monotone|].
  destruct (loadData_migrates_legacy_example (host := utcHost) upgradeEnv
              Hnew Hold upgradeClock_monotone)
    as (e1 & Hload & _ & Hnd & Hgone & _ & Hagain).
  eexists _, e1. split; [exact Hload|].
  split; [reflexivity|]. split; [exact Hnd|]. split; [exact Hgone|exact Hagain].
Defined.

(* ===================================================================== *)
(** * Further properties of the page *)
(* ===================================================================== *)

Section MoreProperties.
Context {host : Host}.

(** ** Loading and the stored collection *)


Lemma getItem_todos_after_migration (l : list Task) (e : Env) :
  getItem "todos" (removeItem "todoList" (saveTodos l e))
  = Some (JSON_stringify (todosToJson l)).
Proof.
  unfold getItem, removeItem, saveTodos, setItem. cbn [localStorage].
  rewrite lookup_delete_ne by discriminate. apply lookup_insert_eq.
Qed.

Lemma loadData_again (l : list Task) (e e1 : Env) :
  loadData e = Some (l, e1) ->
  loadData e1 = Some (l, e1).
Proof.
  intros Hload. pose proof Hload as Hcopy.
  unfold loadData, getTruthy in Hload.
  destruct (getItem "todos" e) as [newData|].
  - destruct (truthy newData).
    + destruct (JSON_parse newData) as [j|]; [|discriminate].
      destruct (todosOfJson j) as [l'|]; [|discriminate].
      injection Hload as Hl He. subst. exact Hcopy.
    + destruct (getItem "todoList" e) as [oldData|].
      * destruct (truthy oldData).
        -- destruct (JSON_parse oldData) as [j|]; [|discriminate].
           destruct (legacyOfJson j) as [[a b]|]; [|discriminate].
           injection Hload as <- <-.
           apply loadData_current_key, getItem_todos_after_migration.
        -- injection Hload as Hl He. subst. exact Hcopy.
      * injection Hload as Hl He. subst. exact Hcopy.
  - destruct (getItem "todoList" e) as [oldData|].
    + destruct (truthy oldData).
      * destruct (JSON_parse oldData) as [j|]; [|discriminate].
        destruct (legacyOfJson j) as [[a b]|]; [|discriminate].
        injection Hload as <- <-.
        apply loadData_current_key, getItem_todos_after_migration.
      * injection Hload as Hl He. subst. exact Hcopy.
    + injection Hload as Hl He. subst. exact Hcopy.
Qed.

(** X1.  Whatever is stored, a load that succeeds can be repeated: loading
    again from the environment it leaves returns the same collection and
    changes nothing more.  The first load itself leaves the environment as
    it found it unless it migrates, and a migration removes the old key and
    stores the collection, so that it runs once. *)
Theorem loadData_idempotent (l : list Task) (e e1 : Env) :
  loadData e = Some (l, e1) ->
  loadData e1 = Some (l, e1)
  /\ (e1 = e
      \/ (getTruthy "todos" e = None
          /\ getItem "todoList" e1 = None
          /\ getItem "todos" e1 = Some (JSON_stringify (todosToJson l)))).
Proof.
  intros Hload. split; [exact (loadData_again l e e1 Hload)|].
  unfold loadData in Hload.
  destruct (getTruthy "todos" e) as [newData|].
  - destruct (JSON_parse newData) as [j|]; [|discriminate].
    destruct (todosOfJson j); [|discriminate].
    injection Hload as _ <-. left. reflexivity.
  - destruct (getTruthy "todoList" e) as [oldData|].
    + destruct (JSON_parse oldData) as [j|]; [|discriminate].
      destruct (legacyOfJson j) as [[a b]|]; [|discriminate].
      injection Hload as <- <-. right. split; [reflexivity|]. split.
      * unfold getItem, removeItem. cbn [localStorage]. apply lookup_delete_eq.
      * apply getItem_todos_after_migration.
    + injection Hload as _ <-. left. reflexivity.
Qed.





(** ** The migration of the old format, in general *)

Lemma forEach_open_tasks (texts : list jsstring) (index : Z) (acc : list Task) (e : Env) :
  forEachFrom
    (fun text index (s : list Task * Env) =>
       let '(now, e1) := Date_now (snd s) in
       let '(created, e2) := Date_now e1 in
       (fst s ++ [{| id := now + index; text := text; completed := false;
                     createdAt := toISOString created |}], e2))
    index texts (acc, e)
  = (acc ++ migratedFrom false 0 (timeline e) (readings e) index texts,
     afterReadings (2 * length texts) e).
Proof.
  revert index acc e. induction texts as [|t rest IH]; intros index acc e.
  - cbn. rewrite app_nil_r. destruct e; reflexivity.
  - destruct e as [store clock r pending]. cbn [forEachFrom].
    match goal with
    | |- forEachFrom _ _ _ ?s = _ =>
      let s' := eval cbv beta iota zeta delta [Date_now fst snd timeline readings] in s in
      change s with s'
    end.
    rewrite IH. cbn [timeline readings migratedFrom].
    rewrite <- app_assoc. cbn [Datatypes.app]. rewrite Z.add_0_r.
    f_equal. unfold afterReadings.
    cbn [localStorage timeline readings timeouts length]. f_equal. lia.
Qed.

Lemma forEach_done_tasks (texts : list jsstring) (index : Z) (acc : list Task) (e : Env) :
  forEachFrom
    (fun text index (s : list Task * Env) =>
       let '(now, e1) := Date_now (snd s) in
       let '(created, e2) := Date_now e1 in
       (fst s ++ [{| id := now + 1000 + index; text := text; completed := true;
                     createdAt := toISOString created |}], e2))
    index texts (acc, e)
  = (acc ++ migratedFrom true 1000 (timeline e) (readings e) index texts,
     afterReadings (2 * length texts) e).
Proof.
  revert index acc e. induction texts as [|t rest IH]; intros index acc e.
  - cbn. rewrite app_nil_r. destruct e; reflexivity.
  - destruct e as [store clock r pending]. cbn [forEachFrom].
    match goal with
    | |- forEachFrom _ _ _ ?s = _ =>
      let s' := eval cbv beta iota zeta delta [Date_now fst snd timeline readings] in s in
      change s with s'
    end.
    rewrite IH. cbn [timeline readings migratedFrom].
    rewrite <- app_assoc. cbn [Datatypes.app].
    f_equal. unfold afterReadings.
    cbn [localStorage timeline readings timeouts length]. f_equal. lia.
Qed.

Lemma migratedFrom_lookup (done : bool) (offset : Z) (clock : nat -> Z)
    (texts : list jsstring) (reading : nat) (index : Z) (k : nat) (todo : Task) :
  migratedFrom done offset clock reading index texts !! k = Some todo ->
  id todo = clock (2 * k + reading)%nat + offset + (index + Z.of_nat k)
  /\ createdAt todo = toISOString (clock (2 * k + 1 + reading)%nat)
  /\ completed todo = done
  /\ texts !! k = Some (text todo).
Proof.
  revert reading index k. induction texts as [|t rest IH]; intros reading index k H.
  - discriminate.
  - destruct k as [|k]; cbn [migratedFrom] in H.
    + injection H as <-. cbn. rewrite Z.add_0_r. repeat split; reflexivity.
    + cbn [lookup list_lookup] in H. apply IH in H.
      destruct H as (H1 & H2 & H3 & H4).
      replace (2 * S k + reading)%nat with (2 * k + S (S reading))%nat by lia.
      replace (2 * S k + 1 + reading)%nat with (2 * k + 1 + S (S reading))%nat by lia.
      repeat split; try assumption. rewrite H1. lia.
Qed.

Lemma migratedFrom_length (done : bool) (offset : Z) (clock : nat -> Z)
    (texts : list jsstring) (reading : nat) (index : Z) :
  length (migratedFrom done offset clock reading index texts) = length texts.
Proof.
  revert reading index. induction texts as [|t rest IH]; intros; cbn; [reflexivity|].
  f_equal. apply IH.
Qed.

Lemma migratedFrom_text (done : bool) (offset : Z) (clock : nat -> Z)
    (texts : list jsstring) (reading : nat) (index : Z) :
  List.map text (migratedFrom done offset clock reading index texts) = texts.
Proof.
  revert reading index. induction texts as [|t rest IH]; intros; cbn; [reflexivity|].
  f_equal. apply IH.
Qed.

Lemma migratedFrom_completed (done : bool) (offset : Z) (clock : nat -> Z)
    (texts : list jsstring) (reading : nat) (index : Z) :
  List.map completed (migratedFrom done offset clock reading index texts)
  = repeat done (length texts).
Proof.
  revert reading index. induction texts as [|t rest IH]; intros; cbn; [reflexivity|].
  f_equal. apply IH.
Qed.

(** Under a clock that does not run backwards the ids of a migrated list lie
    between the first reading plus the first index and the last reading
    plus the last index. *)
Lemma migratedFrom_id_bounds (done : bool) (offset : Z) (clock : nat -> Z)
    (texts : list jsstring) (reading : nat) (index : Z) (x : Z) :
  (forall m n : nat, (m <= n)%nat -> clock m <= clock n) ->
  In x (List.map id (migratedFrom done offset clock reading index texts)) ->
  clock reading + offset + index <= x
  /\ x < clock (2 * length texts + reading)%nat + offset + index + Z.of_nat (length texts).
Proof.
  intros Hclock. revert reading index.
  induction texts as [|t rest IH]; intros reading index Hx; [destruct Hx|].
  cbn [migratedFrom List.map id] in Hx. destruct Hx as [<-|Hx].
  - pose proof (Hclock reading (2 * length (t :: rest) + reading)%nat ltac:(lia)).
    rewrite length_cons in *. lia.
  - apply IH in Hx.
    pose proof (Hclock reading (S (S reading)) ltac:(lia)).
    replace (2 * length (t :: rest) + reading)%nat
      with (2 * length rest + S (S reading))%nat by (cbn [length]; lia).
    rewrite length_cons. lia.
Qed.

Lemma migratedFrom_NoDup (done : bool) (offset : Z) (clock : nat -> Z)
    (texts : list jsstring) (reading : nat) (index : Z) :
  (forall m n : nat, (m <= n)%nat -> clock m <= clock n) ->
  NoDup (List.map id (migratedFrom done offset clock reading index texts)).
Proof.
  intros Hclock. revert reading index.
  induction texts as [|t rest IH]; intros reading index; cbn [migratedFrom List.map id].
  - constructor.
  - constructor; [|apply IH].
    rewrite list_elem_of_In. intros Hin.
    apply (migratedFrom_id_bounds _ _ _ _ _ _ _ Hclock) in Hin.
    pose proof (Hclock reading (S (S reading)) ltac:(lia)). lia.
Qed.

Lemma loadData_migration_result (e : Env) (s : jsstring) (open done : list jsstring) :
  getTruthy "todos" e = None ->
  getTruthy "todoList" e = Some s ->
  isLegacy s open done ->
  let l := migratedFrom false 0 (timeline e) (readings e) 0 open
           ++ migratedFrom true 1000 (timeline e)
                           (2 * length open + readings e)%nat 0 done in
  loadData e
  = Some (l, removeItem "todoList"
               (saveTodos l (afterReadings (2 * length done)
                                           (afterReadings (2 * length open) e)))).
Proof.
  intros Hnew Hold (j & Hparse & Hshape).
  unfold loadData. rewrite Hnew, Hold, Hparse, Hshape. cbn zeta.
  unfold forEach. rewrite forEach_open_tasks.
  rewrite forEach_done_tasks. reflexivity.
Qed.

(** X3.  The migration for any old store.  When the current key is absent
    (or empty) and the old key holds the open tasks [open] and the completed
    tasks [done], [loadData] returns one task per text, the open ones first,
    in the order of the old lists, with the texts unchanged, the open ones
    not completed and the others completed.  The task at position [k] takes
    reading [2k] of the clock for its id, plus its index in its own list,
    plus 1000 for a completed task, and reading [2k+1] for its creation time.
    The old key is removed and the collection saved under the current key.
    The ids are pairwise different when the clock does not run backwards and
    there are at most 1000 open tasks. *)
Theorem loadData_migrates (e : Env) (s : jsstring) (open done : list jsstring) :
  getTruthy "todos" e = None ->
  getTruthy "todoList" e = Some s ->
  isLegacy s open done ->
  exists l e1,
    loadData e = Some (l, e1)
    /\ List.map text l = open ++ done
    /\ List.map completed l
       = repeat false (length open) ++ repeat true (length done)
    /\ (forall (k : nat) (todo : Task),
          l !! k = Some todo ->
          id todo = timeline e (2 * k + readings e)%nat
                    + (if (k <? length open)%nat then Z.of_nat k
                       else 1000 + Z.of_nat (k - length open))
          /\ createdAt todo = toISOString (timeline e (2 * k + 1 + readings e)%nat))
    /\ getItem "todoList" e1 = None
    /\ getItem "todos" e1 = Some (JSON_stringify (todosToJson l))
    /\ readings e1 = (2 * (length open + length done) + readings e)%nat
    /\ ((forall m n : nat, (m <= n)%nat -> timeline e m <= timeline e n) ->
        (length open <= 1000)%nat ->
        NoDup (List.map id l)).
Proof.
  intros Hnew Hold (j & Hparse & Hshape).
  unfold loadData. rewrite Hnew, Hold, Hparse, Hshape. cbn zeta.
  unfold forEach. rewrite forEach_open_tasks.
  rewrite forEach_done_tasks. cbn [fst snd Datatypes.app].
  cbn [afterReadings timeline readings].
  eexists _, _. split; [reflexivity|].
  split; [rewrite List.map_app, !migratedFrom_text; reflexivity|].
  split; [rewrite List.map_app, !migratedFrom_completed; reflexivity|].
  split; [|split; [|split; [|split]]].
  - intros k todo Hk.
    destruct (Nat.ltb_spec k (length open)) as [Hlt|Hge].
    + rewrite lookup_app_l in Hk by (rewrite migratedFrom_length; exact Hlt).
      apply migratedFrom_lookup in Hk. destruct Hk as (H1 & H2 & _).
      rewrite H1, H2. split; [lia|reflexivity].
    + rewrite lookup_app_r in Hk by (rewrite migratedFrom_length; exact Hge).
      rewrite migratedFrom_length in Hk.
      apply migratedFrom_lookup in Hk. destruct Hk as (H1 & H2 & _).
      rewrite H1, H2.
      replace (2 * (k - length open) + (2 * length open + readings e))%nat
        with (2 * k + readings e)%nat by lia.
      replace (2 * (k - length open) + 1 + (2 * length open + readings e))%nat
        with (2 * k + 1 + readings e)%nat by lia.
      split; [lia|reflexivity].
  - unfold getItem, removeItem. cbn [localStorage]. apply lookup_delete_eq.
  - apply getItem_todos_after_migration.
  - unfold removeItem, saveTodos, setItem, afterReadings. cbn [readings]. lia.
  - intros Hclock Hopen. rewrite List.map_app. apply NoDup_app.
    split; [apply migratedFrom_NoDup, Hclock|].
    split; [|apply migratedFrom_NoDup, Hclock].
    intros x Hx Hy. rewrite list_elem_of_In in Hx, Hy.
    apply (migratedFrom_id_bounds _ _ _ _ _ _ _ Hclock) in Hx.
    apply (migratedFrom_id_bounds _ _ _ _ _ _ _ Hclock) in Hy.
    lia.
Qed.

(** ** The sections as views of the collection *)

Lemma filter_complement_perm {A : Type} (f : A -> bool) (l : list A) :
  Permutation (List.filter f l ++ List.filter (fun x => negb (f x)) l) l.
Proof.
  induction l as [|x l IH]; [constructor|].
  cbn [List.filter]. destruct (f x); cbn [negb Datatypes.app].
  - constructor. exact IH.
  - symmetry. apply Permutation_cons_app. symmetry. exact IH.
Qed.

Lemma filter_implies_sublist {A : Type} (f g : A -> bool) (l : list A) :
  (forall x, f x = true -> g x = true) ->
  sublist (List.filter f l) (List.filter g l).
Proof.
  intros Hfg. induction l as [|x l IH]; [constructor|].
  cbn [List.filter]. destruct (f x) eqn:Hf.
  - rewrite (Hfg x Hf). constructor. exact IH.
  - destruct (g x); [constructor|]; exact IH.
Qed.

Lemma getFilteredTodos_all (app : TodoApp) (e : Env) :
  fst (getFilteredTodos (withSection (js "all") app) e)
  = List.filter (fun todo => negb (completed todo)) (todos app).
Proof. reflexivity. Qed.

Lemma getFilteredTodos_completed (app : TodoApp) (e : Env) :
  fst (getFilteredTodos (withSection (js "completed") app) e)
  = List.filter (fun todo => completed todo) (todos app).
Proof. reflexivity. Qed.

Lemma getFilteredTodos_today (app : TodoApp) (e : Env) :
  fst (getFilteredTodos (withSection (js "today") app) e)
  = List.filter (isForToday (toDateString (timeline e (readings e)))) (todos app).
Proof. reflexivity. Qed.

(** X4.  The sections [all] and [completed] split the collection: every
    task is in exactly one of the two lists, the lists together have all the
    tasks, and the list of [today] is a subsequence of the list of [all]. *)
Theorem sections_partition_collection (app : TodoApp) (e : Env) :
  let view section := fst (getFilteredTodos (withSection (js section) app) e) in
  Permutation (view "completed" ++ view "all") (todos app)
  /\ (length (view "all") + length (view "completed"))%nat = length (todos app)
  /\ (forall todo, In todo (view "all") -> ~ In todo (view "completed"))
  /\ sublist (view "today") (view "all").
Proof.
  cbn zeta beta.
  rewrite getFilteredTodos_all, getFilteredTodos_completed, getFilteredTodos_today.
  pose proof (filter_complement_perm (fun todo => completed todo) (todos app)) as Hperm.
  split; [exact Hperm|]. split; [|split].
  - apply Permutation_length in Hperm. rewrite length_app in Hperm. lia.
  - intros todo Hopen Hdone. apply filter_In in Hopen, Hdone.
    destruct Hopen as [_ Hopen], Hdone as [_ Hdone].
    rewrite Hdone in Hopen. discriminate.
  - apply filter_implies_sublist. intros todo Htoday.
    unfold isForToday in Htoday. apply andb_true_iff in Htoday. apply Htoday.
Qed.

(** ** The statistics line *)

Lemma updateStats_line (app : TodoApp) (e : Env) :
  stats_textContent (fst (updateStats app e))
  = let total := length (todos app) in
    let done := length (List.filter (fun todo => completed todo) (todos app)) in
    let today := length (List.filter (isForToday (toDateString (timeline e (readings e))))
                                     (todos app)) in
    if Nat.eqb total 0 then js "0 tasks"
    else if strEq (currentSection app) (js "today") then
      countToString today ++ js " task" ++ plural today ++ js " for today"
    else if strEq (currentSection app) (js "completed") then
      countToString done ++ js " completed task" ++ plural done
    else
      countToString total ++ js " task" ++ plural total
      ++ js " " ++ [8226%N] ++ js " " ++ countToString done ++ js " completed"
      ++ js " " ++ [8226%N] ++ js " " ++ countToString (total - done) ++ js " pending".
Proof. reflexivity. Qed.

Lemma render_stats (app : TodoApp) (e : Env) :
  stats_textContent (fst (render app e))
  = stats_textContent (fst (updateStats app (snd (Date_now e)))).
Proof.
  unfold render, getFilteredTodos.
  destruct (Date_now e) as [now e1]. cbn [snd].
  match goal with
  | |- context [Nat.eqb ?n 0] => destruct (Nat.eqb n 0)
  end; reflexivity.
Qed.

Lemma render_rows_length (app : TodoApp) (e : Env) :
  length (todoList_dataIds (fst (render app e)))
  = length (fst (getFilteredTodos app e)).
Proof. rewrite render_dataIds. apply length_map. Qed.

Lemma render_no_tasks (app : TodoApp) (e : Env) :
  todos app = [] ->
  stats_textContent (fst (render app e)) = js "0 tasks"
  /\ todoList_dataIds (fst (render app e)) = []
  /\ todoList_innerHTML (fst (render app e)) = renderEmpty (currentSection app).
Proof.
  intros Hempty. split; [|split].
  - rewrite render_stats, updateStats_line. cbn zeta. rewrite Hempty. reflexivity.
  - rewrite render_dataIds.
    destruct (getFilteredTodos_is_filter app e) as [f ->]. rewrite Hempty. reflexivity.
  - unfold render.
    destruct (getFilteredTodos_is_filter app e) as [f Hf].
    destruct (getFilteredTodos app e) as [filtered e1]. cbn [fst] in Hf.
    rewrite Hf, Hempty. reflexivity.
Qed.

(** X5.  With an empty collection the statistics line is [0 tasks] in every
    section, from [updateStats] alone and after [render], and the list shows
    the empty-state message of the section and no row. *)
Theorem render_empty_collection (app : TodoApp) (e : Env) :
  todos app = [] ->
  stats_textContent (fst (updateStats app e)) = js "0 tasks"
  /\ stats_textContent (fst (render app e)) = js "0 tasks"
  /\ todoList_dataIds (fst (render app e)) = []
  /\ todoList_innerHTML (fst (render app e)) = renderEmpty (currentSection app).
Proof.
  intros Hempty. split; [|exact (render_no_tasks app e Hempty)].
  rewrite updateStats_line. cbn zeta. rewrite Hempty. reflexivity.
Qed.

Lemma filter_length_le {A : Type} (f : A -> bool) (l : list A) :
  (length (List.filter f l) <= length l)%nat.
Proof. apply sublist_length, filter_sublist. Qed.

(** X6.  With a collection that is not empty, the numbers of the statistics
    line are the numbers of the page.  In section [completed] the count is
    the number of rows shown; in section [today] it is too, provided the two
    clock readings of [render] fall on the same day; in any other section the
    line gives the total, the completed and the pending tasks, the pending
    ones being the rows shown and the total the sum of the other two. *)
Theorem render_stats_match_rows (app : TodoApp) (e : Env) :
  todos app <> [] ->
  let page := fst (render app e) in
  let rows := length (todoList_dataIds page) in
  (currentSection app = js "completed" ->
     stats_textContent page
     = countToString rows ++ js " completed task" ++ plural rows)
  /\ (currentSection app = js "today" ->
      sameDay (timeline e (readings e)) (timeline e (S (readings e))) ->
      stats_textContent page
      = countToString rows ++ js " task" ++ plural rows ++ js " for today")
  /\ (currentSection app <> js "today" -> currentSection app <> js "completed" ->
      exists done : nat,
        (done + rows)%nat = length (todos app)
        /\ stats_textContent page
           = countToString (done + rows) ++ js " task" ++ plural (done + rows)
             ++ js " " ++ [8226%N] ++ js " " ++ countToString done ++ js " completed"
             ++ js " " ++ [8226%N] ++ js " " ++ countToString rows ++ js " pending").
Proof.
  intros Hne. cbn zeta.
  rewrite render_rows_length, render_stats, updateStats_line. cbn zeta.
  assert (Nat.eqb (length (todos app)) 0 = false) as ->.
  { destruct (todos app); [congruence|reflexivity]. }
  unfold getFilteredTodos, Date_now. cbn [fst snd timeline readings].
  split; [|split].
  - intros ->. reflexivity.
  - intros -> Hday. unfold sameDay in Hday. rewrite strEq_refl, Hday. reflexivity.
  - intros H1 H2. rewrite (strEq_false _ _ H1), (strEq_false _ _ H2).
    exists (length (List.filter (fun todo => completed todo) (todos app))).
    pose proof (filter_complement_perm (fun todo => completed todo) (todos app)) as Hperm.
    apply Permutation_length in Hperm. rewrite length_app in Hperm.
    split; [exact Hperm|].
    rewrite Hperm.
    replace (length (todos app)
             - length (List.filter (fun todo => completed todo) (todos app)))%nat
      with (length (List.filter (fun todo => negb (completed todo)) (todos app)))
      by lia.
    reflexivity.
Qed.

(** ** [addTodo] and [trim] *)

Lemma trimStart_spec (s : jsstring) :
  exists a, s = a ++ trimStart s /\ blank a
            /\ (forall c r, trimStart s = c :: r -> isWhiteSpace c = false).
Proof.
  induction s as [|c s (a & Hs & Ha & Hhead)].
  - exists []. repeat split; [intros c []|discriminate].
  - cbn [trimStart]. destruct (isWhiteSpace c) eqn:Hc.
    + exists (c :: a). split; [cbn; congruence|]. split; [|exact Hhead].
      intros d [<-|Hd]; [exact Hc|exact (Ha d Hd)].
    + exists []. split; [reflexivity|]. split; [intros d []|].
      intros d r Heq. injection Heq as <- _. exact Hc.
Qed.

Lemma trimEnd_spec (s : jsstring) :
  exists b, s = trimEnd s ++ b /\ blank b
            /\ (forall r c, trimEnd s = r ++ [c] -> isWhiteSpace c = false).
Proof.
  unfold trimEnd.
  destruct (trimStart_spec (rev s)) as (a & Hs & Ha & Hhead).
  exists (rev a). split; [|split].
  - rewrite <- rev_app_distr, <- Hs, rev_involutive. reflexivity.
  - intros c Hc. apply Ha. apply in_rev. exact Hc.
  - intros r c Heq. apply (Hhead c (rev r)).
    rewrite <- (rev_involutive (trimStart (rev s))), Heq, rev_app_distr. reflexivity.
Qed.

Lemma trimStart_fixed (s : jsstring) :
  (forall c r, s = c :: r -> isWhiteSpace c = false) -> trimStart s = s.
Proof.
  destruct s as [|c r]; [reflexivity|]. intros H. cbn [trimStart].
  rewrite (H c r eq_refl). reflexivity.
Qed.

(** What [trim] returns: the input without a run of white space at each
    end. *)
Lemma trim_spec (s : jsstring) :
  exists a b,
    s = a ++ trim s ++ b /\ blank a /\ blank b
    /\ (forall c r, trim s = c :: r -> isWhiteSpace c = false)
    /\ (forall r c, trim s = r ++ [c] -> isWhiteSpace c = false).
Proof.
  unfold trim.
  destruct (trimStart_spec s) as (a & Hs & Ha & Hhead).
  destruct (trimEnd_spec (trimStart s)) as (b & Ht & Hb & Hlast).
  exists a, b. split; [|split; [exact Ha|split; [exact Hb|split; [|exact Hlast]]]].
  - rewrite <- Ht. exact Hs.
  - intros c r Heq. apply (Hhead c (r ++ b)). rewrite Ht at 1. rewrite Heq. reflexivity.
Qed.

Lemma trim_blank (s : jsstring) : trim s = [] <-> blank s.
Proof.
  destruct (trim_spec s) as (a & b & Hs & Ha & Hb & Hhead & _). split.
  - intros Hnil. rewrite Hnil in Hs. cbn in Hs. rewrite Hs.
    intros c Hc. apply in_app_or in Hc. destruct Hc; [apply Ha|apply Hb]; assumption.
  - intros Hblank. destruct (trim s) as [|c r] eqn:Htrim; [reflexivity|].
    exfalso. pose proof (Hhead c r eq_refl) as Hc.
    rewrite (Hblank c) in Hc; [discriminate|].
    rewrite Hs. apply in_or_app. right. left. reflexivity.
Qed.

(** X7.  [addTodo].  An input made of white space only (or empty) changes
    nothing.  Any other input puts one task in front of the collection, not
    completed, with the first clock reading as id and the second as creation
    time; its text is the input without the white space at its two ends and
    with everything between kept, so it is not empty and neither starts nor
    ends with white space.  The input box is emptied and the new collection
    stored. *)
Theorem addTodo_stores_trimmed_text (app : TodoApp) (e : Env) :
  (blank (todoInput_value app) -> addTodo app e = (app, e))
  /\ (~ blank (todoInput_value app) ->
      exists todo before after,
        todos (fst (addTodo app e)) = todo :: todos app
        /\ id todo = timeline e (readings e)
        /\ completed todo = false
        /\ createdAt todo = toISOString (timeline e (S (readings e)))
        /\ todoInput_value (fst (addTodo app e)) = []
        /\ getItem "todos" (snd (addTodo app e))
           = Some (JSON_stringify (todosToJson (todo :: todos app)))
        /\ todoInput_value app = before ++ text todo ++ after
        /\ blank before /\ blank after
        /\ text todo <> []
        /\ (forall c r, text todo = c :: r -> isWhiteSpace c = false)
        /\ (forall r c, text todo = r ++ [c] -> isWhiteSpace c = false)).
Proof.
  destruct (addTodo_spec app e) as [Hblank Hadd]. split.
  - intros H. apply Hblank, trim_blank, H.
  - intros H.
    assert (trim (todoInput_value app) <> []) as Hne
      by (intros Hnil; apply H, trim_blank, Hnil).
    destruct (Hadd Hne) as (Htodos & Hinput & Hstore & _).
    destruct (trim_spec (todoInput_value app)) as (a & b & Hs & Ha & Hb & Hhead & Hlast).
    eexists _, a, b. split; [exact Htodos|]. cbn [text id completed createdAt].
    repeat split; assumption.
Qed.

(** ** Deleting twice, toggling a row *)

Lemma filter_other_ids_idempotent (i : Z) (l : list Task) :
  List.filter (fun todo => negb (id todo =? i))
              (List.filter (fun todo => negb (id todo =? i)) l)
  = List.filter (fun todo => negb (id todo =? i)) l.
Proof.
  apply filter_keeps_all. intros todo Hin. apply filter_In in Hin. apply Hin.
Qed.

Lemma deleteCallback_timeouts (i : Z) (app : TodoApp) (e : Env) :
  timeouts (snd (deleteCallback i app e)) = timeouts e.
Proof.
  unfold deleteCallback.
  match goal with
  | |- context [render ?a ?b] =>
    pose proof (render_frame a b) as (_ & _ & _ & _ & Ht & _)
  end.
  rewrite Ht. reflexivity.
Qed.

Lemma deleteTodo_displayed (i : Z) (app : TodoApp) (e : Env) :
  In (numberToString i) (todoList_dataIds app) ->
  deleteTodo i app e = (app, setTimeout i e).
Proof.
  intros Hrow. apply list_elem_of_In in Hrow.
  unfold deleteTodo. rewrite (bool_decide_eq_true_2 _ Hrow). reflexivity.
Qed.

Lemma fireTimeout_storage (i : Z) (rest : list Z) (app : TodoApp) (e : Env) :
  timeouts e = i :: rest ->
  getItem "todos" (snd (fireTimeout app e))
  = Some (JSON_stringify (todosToJson (todos (fst (fireTimeout app e))))).
Proof.
  intros Hq. unfold fireTimeout. rewrite Hq. apply deleteCallback_storage.
Qed.

(** X8.  The delete button of a row removes the task of that row.  At any
    moment of a visit with distinct ids and no removal pending, for every row
    that is displayed, [deleteTodo] of its id followed by the expiry of the
    timer takes exactly one task out of the collection, the one with that
    id, and leaves the others in place and in order. *)
Theorem delete_button_removes_its_task (i : Z) (st : TodoApp * Env) :
  reachable st ->
  timeouts (snd st) = [] ->
  NoDup (List.map id (todos (fst st))) ->
  In (numberToString i) (todoList_dataIds (fst st)) ->
  exists l1 todo l2,
    todos (fst st) = l1 ++ todo :: l2
    /\ id todo = i
    /\ todos (fst (run [Delete i; TimerExpires] st)) = l1 ++ l2.
Proof.
  intros Hreach Hno Hnd Hrow.
  pose proof (reachable_row_has_task i st Hreach Hrow) as Hpresent.
  destruct st as [app e]. cbn [fst snd] in *.
  destruct (filter_other_ids_split i (todos app) Hnd Hpresent)
    as (l1 & todo & l2 & Hsplit & Hid & Hfilter).
  exists l1, todo, l2. split; [exact Hsplit|]. split; [exact Hid|].
  unfold run. cbn [fold_left step].
  rewrite (deleteTodo_displayed i app e Hrow). cbn [step].
  assert (timeouts (setTimeout i e) = [i]) as Hq
    by (unfold setTimeout; cbn [timeouts]; rewrite Hno; reflexivity).
  rewrite (proj1 (fireTimeout_oldest i [] app _ Hq)). exact Hfilter.
Qed.

(** X9.  A second click on the delete button of a row before its timer has
    expired sets a second timer; when both have expired the collection and
    the storage are what one click gives, and no timer is left. *)
Theorem deleteTodo_twice (i : Z) (app : TodoApp) (e : Env) :
  timeouts e = [] ->
  In (numberToString i) (todoList_dataIds app) ->
  let once := run [Delete i; TimerExpires] (app, e) in
  let twice := run [Delete i; Delete i; TimerExpires; TimerExpires] (app, e) in
  timeouts (snd (run [Delete i; Delete i] (app, e))) = [i; i]
  /\ todos (fst twice) = todos (fst once)
  /\ getItem "todos" (snd twice) = getItem "todos" (snd once)
  /\ timeouts (snd twice) = [].
Proof.
  intros Hno Hrow. cbn zeta. unfold run. cbn [fold_left step].
  rewrite !(deleteTodo_displayed i app) by exact Hrow. cbn [step].
  rewrite !(deleteTodo_displayed i app) by exact Hrow. cbn [step snd].
  assert (timeouts (setTimeout i e) = [i]) as H1
    by (unfold setTimeout; cbn [timeouts]; rewrite Hno; reflexivity).
  assert (timeouts (setTimeout i (setTimeout i e)) = [i; i]) as H2
    by (unfold setTimeout at 1; cbn [timeouts]; rewrite H1; reflexivity).
  split; [exact H2|].
  destruct (fireTimeout_oldest i [] app _ H1) as [Honce _].
  destruct (fireTimeout_oldest i [i] app _ H2) as [Hl3 Ht3].
  pose proof (fireTimeout_storage i [] app _ H1) as Hsonce.
  destruct (fireTimeout app (setTimeout i (setTimeout i e))) as [app3 e3].
  cbn [fst snd] in Hl3, Ht3. cbn [step].
  destruct (fireTimeout_oldest i [] app3 e3 Ht3) as [Hl4 Ht4].
  rewrite (fireTimeout_storage i [] app3 e3 Ht3), Hsonce, Hl4, Hl3, Honce.
  rewrite filter_other_ids_idempotent.
  repeat split; [exact Ht4].
Qed.

Lemma getFilteredTodos_keptIn (app : TodoApp) (e : Env) :
  currentSection app <> js "today" ->
  fst (getFilteredTodos app e) = List.filter (keptIn (currentSection app)) (todos app).
Proof.
  intros Hs. unfold getFilteredTodos, Date_now, keptIn. cbn [fst].
  rewrite (strEq_false _ _ Hs).
  destruct (strEq (currentSection app) (js "completed")); reflexivity.
Qed.

Lemma keptIn_flipCompleted (section : jsstring) (todo : Task) :
  keptIn section (flipCompleted todo) = negb (keptIn section todo).
Proof.
  unfold keptIn, flipCompleted. cbn [completed].
  destruct (strEq section (js "completed")); [reflexivity|].
  rewrite negb_involutive. reflexivity.
Qed.

Lemma same_id_same_task (l : list Task) (a b : Task) :
  NoDup (List.map id l) -> In a l -> In b l -> id a = id b -> a = b.
Proof.
  induction l as [|x l IH]; intros Hnd Ha Hb Hid; [destruct Ha|].
  cbn [List.map] in Hnd. apply NoDup_cons in Hnd. destruct Hnd as [Hx Hnd].
  rewrite list_elem_of_In in Hx.
  destruct Ha as [<-|Ha], Hb as [<-|Hb].
  - reflexivity.
  - exfalso. apply Hx. rewrite Hid. apply in_map, Hb.
  - exfalso. apply Hx. rewrite <- Hid. apply in_map, Ha.
  - apply IH; assumption.
Qed.

Lemma filter_map_pointwise {A : Type} (p q : A -> bool) (g : A -> A) (l : list A) :
  (forall x, In x l -> p (g x) = q x /\ (q x = true -> g x = x)) ->
  List.filter p (List.map g l) = List.filter q l.
Proof.
  induction l as [|x l IH]; intros H; [reflexivity|].
  cbn [List.map List.filter].
  destruct (H x (or_introl eq_refl)) as [Hpq Hfix].
  rewrite Hpq, IH by (intros y Hy; apply H; right; exact Hy).
  destruct (q x); [rewrite Hfix by reflexivity|]; reflexivity.
Qed.

Lemma filter_filter_and {A : Type} (p q : A -> bool) (l : list A) :
  List.filter q (List.filter p l) = List.filter (fun x => p x && q x) l.
Proof.
  induction l as [|x l IH]; [reflexivity|].
  cbn [List.filter]. destruct (p x); cbn [andb List.filter]; rewrite IH; reflexivity.
Qed.

(** X10.  Toggling a task that is shown takes its row away.  In a section
    other than [today], with distinct ids, after [toggleTodo] of a task of
    the current view the rows are those of the other tasks of the view, in
    order; the task itself is still in the collection, with [completed]
    flipped. *)
Theorem toggleTodo_removes_row (todo : Task) (app : TodoApp) (e : Env) :
  currentSection app <> js "today" ->
  NoDup (List.map id (todos app)) ->
  In todo (fst (getFilteredTodos app e)) ->
  let page := fst (toggleTodo (id todo) app e) in
  todoList_dataIds page
  = List.map (fun t => numberToString (id t))
             (List.filter (fun t => negb (id t =? id todo))
                          (fst (getFilteredTodos app e)))
  /\ In (flipCompleted todo) (todos page)
  /\ ~ In (numberToString (id todo)) (todoList_dataIds page).
Proof.
  intros Hs Hnd Hin. cbn zeta.
  rewrite (getFilteredTodos_keptIn app e Hs) in *.
  apply filter_In in Hin. destruct Hin as [Hin Hkept].
  assert (todoList_dataIds (fst (toggleTodo (id todo) app e))
          = List.map (fun t => numberToString (id t))
              (List.filter (fun t => negb (id t =? id todo))
                 (List.filter (keptIn (currentSection app)) (todos app)))) as Hrows.
  { unfold toggleTodo. rewrite render_dataIds, getFilteredTodos_keptIn by exact Hs.
    cbn [withTodos currentSection todos]. f_equal.
    rewrite filter_filter_and. apply filter_map_pointwise.
    intros t Ht. destruct (Z.eqb_spec (id t) (id todo)) as [Heq|Hne].
    - assert (t = todo) as -> by (apply (same_id_same_task (todos app)); assumption).
      rewrite keptIn_flipCompleted, Hkept. split; [reflexivity|discriminate].
    - rewrite andb_true_r. split; reflexivity. }
  split; [exact Hrows|]. split.
  - rewrite toggleTodo_todos. apply in_map_iff. exists todo.
    rewrite Z.eqb_refl. split; [reflexivity|exact Hin].
  - rewrite Hrows. intros Hrow. apply in_map_iff in Hrow.
    destruct Hrow as (t & Heq & Ht). apply numberToString_inj in Heq.
    apply filter_In in Ht. destruct Ht as [_ Ht].
    rewrite Heq, Z.eqb_refl in Ht. discriminate.
Qed.

(** ** Theme, section and reload *)

Lemma render_currentTheme (app : TodoApp) (e : Env) :
  currentTheme (fst (render app e)) = currentTheme app.
Proof.
  unfold render, getFilteredTodos, updateStats, Date_now. cbn.
  match goal with
  | |- context [Nat.eqb (length ?l) 0] => destruct (Nat.eqb (length l) 0)
  end; reflexivity.
Qed.

Lemma render_theme_key (app : TodoApp) (e : Env) :
  getItem "theme" (snd (render app e)) = getItem "theme" e.
Proof.
  unfold getItem. pose proof (render_frame app e) as (_ & _ & _ & Hs & _).
  rewrite Hs. reflexivity.
Qed.


Lemma loadData_theme_key (l : list Task) (e e1 : Env) :
  loadData e = Some (l, e1) -> getItem "theme" e1 = getItem "theme" e.
Proof.
  intros Hload.
  destruct (getTruthy "todos" e) as [newData|] eqn:Hnew.
  - unfold loadData in Hload. rewrite Hnew in Hload.
    destruct (JSON_parse newData) as [j|]; [|discriminate].
    destruct (todosOfJson j); [|discriminate].
    injection Hload as _ <-. reflexivity.
  - destruct (getTruthy "todoList" e) as [oldData|] eqn:Hold.
    + destruct (JSON_parse oldData) as [j|] eqn:Hparse;
        [|unfold loadData in Hload; rewrite Hnew, Hold, Hparse in Hload; discriminate].
      destruct (legacyOfJson j) as [[a b]|] eqn:Hshape;
        [|unfold loadData in Hload; rewrite Hnew, Hold, Hparse, Hshape in Hload;
          discriminate].
      rewrite (loadData_migration_result e oldData a b Hnew Hold) in Hload
        by (exists j; split; assumption).
      injection Hload as _ <-.
      unfold getItem, removeItem, saveTodos, setItem, afterReadings.
      cbn [localStorage].
      rewrite lookup_delete_ne by discriminate.
      rewrite lookup_insert_ne by discriminate. reflexivity.
    + unfold loadData in Hload. rewrite Hnew, Hold in Hload.
      injection Hload as _ <-. reflexivity.
Qed.

(** The theme a newly constructed page would take from the storage. *)
Lemma TodoApp_new_theme (e : Env) (st : TodoApp * Env) :
  TodoApp_new e = Some st ->
  currentTheme (fst st)
  = match getTruthy "theme" e with Some t => t | None => js "light" end
  /\ getItem "theme" (snd st) = getItem "theme" e
  /\ currentSection (fst st) = js "all"
  /\ todoInput_value (fst st) = [].
Proof.
  unfold TodoApp_new. intros Hnew.
  destruct (loadData e) as [[l e1]|] eqn:Hload; [|discriminate].
  injection Hnew as <-.
  pose proof (loadData_theme_key l e e1 Hload) as Hkey.
  rewrite render_currentTheme, render_theme_key.
  match goal with
  | |- context [render ?a ?b] =>
    pose proof (render_frame a b) as (_ & Hsec & Hinput & _)
  end.
  rewrite Hsec, Hinput. cbn [currentTheme currentSection todoInput_value].
  unfold getTruthy. rewrite Hkey. repeat split; reflexivity.
Qed.



(** X12.  [toggleTheme] turns [light] into [dark] and anything else into
    [light], stores the new theme under the key [theme], and touches
    neither the collection, the section nor any other key.  From [light] or
    [dark], toggling twice gives the theme back. *)
Theorem toggleTheme_spec (app : TodoApp) (e : Env) :
  let page := fst (toggleTheme app e) in
  let env := snd (toggleTheme app e) in
  (currentTheme app = js "light" -> currentTheme page = js "dark")
  /\ (currentTheme app <> js "light" -> currentTheme page = js "light")
  /\ getItem "theme" env = Some (currentTheme page)
  /\ todos page = todos app
  /\ currentSection page = currentSection app
  /\ (forall k : string, k <> "theme"%string -> getItem k env = getItem k e)
  /\ (currentTheme app = js "light" \/ currentTheme app = js "dark" ->
      currentTheme (fst (toggleTheme page env)) = currentTheme app).
Proof.
  cbn zeta. unfold toggleTheme.
  cbn [fst snd currentTheme withTheme todos currentSection].
  split; [intros ->; reflexivity|].
  split; [intros Hne; rewrite (strEq_false _ _ Hne); reflexivity|].
  split; [unfold getItem, setItem; cbn [localStorage]; apply lookup_insert_eq|].
  split; [reflexivity|]. split; [reflexivity|].
  split.
  - intros k Hk. unfold getItem, setItem. cbn [localStorage].
    apply lookup_insert_ne. congruence.
  - intros [->| ->]; reflexivity.
Qed.

(** X13.  [switchSection] sets the section and redraws: the rows are the
    tasks of the new section, while the collection, the theme, the input
    box, the storage and the timers stay as they are.  The section is not
    stored: a page constructed from the environment it leaves starts in
    [all]. *)
Theorem switchSection_changes_view_only (section : jsstring) (app : TodoApp) (e : Env) :
  let page := fst (switchSection section app e) in
  let env := snd (switchSection section app e) in
  currentSection page = section
  /\ todos page = todos app
  /\ currentTheme page = currentTheme app
  /\ todoInput_value page = todoInput_value app
  /\ localStorage env = localStorage e
  /\ timeouts env = timeouts e
  /\ todoList_dataIds page
     = List.map (fun todo => numberToString (id todo))
                (fst (getFilteredTodos (withSection section app) e))
  /\ (forall st', TodoApp_new env = Some st' -> currentSection (fst st') = js "all").
Proof.
  cbn zeta. unfold switchSection.
  pose proof (render_frame (withSection section app) e)
    as (Ht & Hs & Hi & Hl & Hq & _).
  rewrite Ht, Hs, Hi, Hl, Hq, render_currentTheme, render_dataIds.
  repeat split; try reflexivity.
  intros st' Hnew. apply (TodoApp_new_theme _ _ Hnew).
Qed.

(** X14.  After the theme is shown, the body has the class [dark-theme]
    exactly for the theme [dark].  With both icons in the page, the moon is
    displayed and the sun hidden for [dark], the other way round for any
    other theme, nothing is logged, and showing the theme again changes
    nothing.  With the button in the page but an icon missing, the icons are
    left alone and one error is logged; without the button nothing but the
    body class changes. *)
Theorem theme_view_shows_theme (app : TodoApp) (v : ThemeView) :
  let dark := strEq (currentTheme app) (js "dark") in
  let v' := initTheme app v in
  (body_darkTheme v' = true <-> currentTheme app = js "dark")
  /\ (forall sun moon,
        themeToggle v = Some {| sunIcon := Some sun; moonIcon := Some moon |} ->
        console_error v' = console_error v
        /\ themeToggle v'
           = Some {| sunIcon := Some (if dark then js "none" else js "block");
                     moonIcon := Some (if dark then js "block" else js "none") |}
        /\ initTheme app v' = v')
  /\ (forall button,
        themeToggle v = Some button ->
        sunIcon button = None \/ moonIcon button = None ->
        themeToggle v' = themeToggle v
        /\ console_error v' = console_error v ++ [js "Theme toggle icons not found"])
  /\ (themeToggle v = None ->
      themeToggle v' = None /\ console_error v' = console_error v).
Proof.
  cbn zeta. unfold initTheme, applyTheme, updateThemeToggleIcon.
  split; [|split; [|split]].
  - rewrite <- strEq_true.
    destruct (strEq (currentTheme app) (js "dark")); cbn [themeToggle];
      destruct (themeToggle v) as [[[sun|] [moon|]]|]; cbn [sunIcon moonIcon body_darkTheme];
      split; congruence.
  - intros sun moon Hv.
    destruct (strEq (currentTheme app) (js "dark")); cbn [themeToggle];
      rewrite Hv; cbn [sunIcon moonIcon console_error themeToggle body_darkTheme];
      repeat split; reflexivity.
  - intros button Hv Hmissing.
    destruct (strEq (currentTheme app) (js "dark")); cbn [themeToggle];
      rewrite Hv; destruct button as [[sun|] [moon|]];
      cbn [sunIcon moonIcon] in *;
      try (destruct Hmissing; discriminate);
      cbn [console_error themeToggle]; rewrite ?Hv; split; reflexivity.
  - intros Hv.
    destruct (strEq (currentTheme app) (js "dark")); cbn [themeToggle];
      rewrite Hv; cbn [themeToggle console_error]; rewrite ?Hv; split; reflexivity.
Qed.

(** X15.  On a page whose theme is [light] or [dark] and whose button has
    both icons, one [toggleTheme] flips the class of the body, and a second
    one gives the page the look it has for its theme. *)
Theorem toggleThemeView_twice (app : TodoApp) (e : Env) (v : ThemeView) (sun moon : jsstring) :
  currentTheme app = js "light" \/ currentTheme app = js "dark" ->
  themeToggle v = Some {| sunIcon := Some sun; moonIcon := Some moon |} ->
  let once := toggleThemeView app e v in
  let twice := toggleThemeView (fst (toggleTheme app e)) (snd (toggleTheme app e)) once in
  body_darkTheme once = negb (body_darkTheme (initTheme app v))
  /\ twice = initTheme app v.
Proof.
  intros Htheme Hv. cbn zeta.
  unfold toggleThemeView, toggleTheme, initTheme, applyTheme, updateThemeToggleIcon.
  cbn [fst snd currentTheme withTheme].
  destruct Htheme as [-> | ->];
    cbn [strEq]; 
    repeat (change (strEq (js "light") (js "light")) with true
            || change (strEq (js "dark") (js "light")) with false
            || change (strEq (js "light") (js "dark")) with false
            || change (strEq (js "dark") (js "dark")) with true
            || cbn iota
            || cbn [themeToggle sunIcon moonIcon body_darkTheme console_error]
            || rewrite Hv);
    split; reflexivity.
Qed.


(** X16.  A first visit: with nothing usable under either key, the page is
    constructed with an empty collection in section [all], shows the
    empty-state message and [0 tasks], and writes nothing to the storage. *)
Theorem first_visit (e : Env) :
  getTruthy "todos" e = None ->
  getTruthy "todoList" e = None ->
  exists st,
    TodoApp_new e = Some st
    /\ todos (fst st) = []
    /\ localStorage (snd st) = localStorage e
    /\ currentSection (fst st) = js "all"
    /\ stats_textContent (fst st) = js "0 tasks"
    /\ todoList_dataIds (fst st) = []
    /\ todoList_innerHTML (fst st) = renderEmpty (js "all").
Proof.
  intros Hnew Hold. unfold TodoApp_new, loadData. rewrite Hnew, Hold.
  eexists. split; [reflexivity|].
  match goal with
  | |- context [render ?a ?b] =>
    pose proof (render_frame a b) as (Ht & Hs & _ & Hl & _);
    pose proof (render_no_tasks a b eq_refl) as (Hstats & Hrows & Hhtml)
  end.
  rewrite Ht, Hs, Hl, Hstats, Hrows, Hhtml. repeat split; reflexivity.
Qed.

(** ** Where ids come from *)

Lemma step_ids_sublist (ev : Event) (st : TodoApp * Env) :
  ev <> Add ->
  sublist (List.map id (todos (fst (step ev st)))) (List.map id (todos (fst st))).
Proof.
  destruct st as [app e]. intros Hev.
  destruct ev as [s| |i|i|section| |]; cbn [step fst]; try reflexivity.
  - congruence.
  - rewrite toggleTodo_todos, List.map_map.
    erewrite List.map_ext; [reflexivity|].
    intros todo. destruct (id todo =? i); reflexivity.
  - unfold deleteTodo.
    destruct (bool_decide (numberToString i ∈ todoList_dataIds app)); reflexivity.
  - unfold switchSection. rewrite render_todos. reflexivity.
  - unfold fireTimeout. destruct (timeouts e) as [|i rest]; [reflexivity|].
    rewrite deleteCallback_todos.
    change (sublist (id <$> List.filter (fun todo => negb (id todo =? i)) (todos app))
                    (id <$> todos app)).
    apply fmap_sublist, filter_sublist.
Qed.

(** X11.  No event but adding a task makes an id.  Over any sequence of
    events without [Add], the ids of the collection are a subsequence of
    the ids it had, so they stay distinct if they were. *)
Theorem events_without_add_keep_ids (evs : list Event) (st : TodoApp * Env) :
  ~ In Add evs ->
  sublist (List.map id (todos (fst (run evs st)))) (List.map id (todos (fst st)))
  /\ (NoDup (List.map id (todos (fst st))) ->
      NoDup (List.map id (todos (fst (run evs st))))).
Proof.
  intros Hevs.
  assert (sublist (List.map id (todos (fst (run evs st))))
                  (List.map id (todos (fst st)))) as Hsub.
  { revert st. induction evs as [|ev evs IH]; intros st; [reflexivity|].
    unfold run. cbn [fold_left].
    etransitivity.
    - apply IH. intros H. apply Hevs. right. exact H.
    - apply step_ids_sublist. intros ->. apply Hevs. left. reflexivity. }
  split; [exact Hsub|].
  intros Hnd. exact (sublist_NoDup _ _ Hnd Hsub).
Qed.
End MoreProperties.

(* ===================================================================== *)
(** * Concrete runs of the further properties *)
(* ===================================================================== *)

Lemma returningState_reachable : reachable (host := utcHost) returningState.
Proof.
  apply (reachable_new returningEnv). apply returningPage_constructed.
Defined.

Lemma loadData_idempotent_witness :
  exists l e1,
    loadData (host := utcHost) upgradeEnv = Some (l, e1)
    /\ loadData (host := utcHost) e1 = Some (l, e1).
Proof.
  destruct (loadData (host := utcHost) upgradeEnv) as [[l e1]|] eqn:Hload.
  - exists l, e1. split; [reflexivity|].
    exact (proj1 (loadData_idempotent (host := utcHost) l upgradeEnv e1 Hload)).
  - vm_compute in Hload. discriminate.
Defined.

Lemma legacyExample_isLegacy : isLegacy legacyExample [js "a"; js "b"] [js "c"].
Proof.
  eexists. split; [apply JSON_parse_stringify|reflexivity].
Defined.

Lemma loadData_migrates_witness :
  getTruthy "todos" upgradeEnv = None
  /\ getTruthy "todoList" upgradeEnv = Some legacyExample
  /\ isLegacy legacyExample [js "a"; js "b"] [js "c"]
  /\ exists l e1,
       loadData (host := utcHost) upgradeEnv = Some (l, e1)
       /\ List.map text l = [js "a"; js "b"; js "c"]
       /\ List.map completed l = [false; false; true].
Proof.
  assert (getTruthy "todos" upgradeEnv = None) as Hnew by reflexivity.
  assert (getTruthy "todoList" upgradeEnv = Some legacyExample) as Hold by reflexivity.
  split; [exact Hnew|]. split; [exact Hold|]. split; [exact legacyExample_isLegacy|].
  destruct (loadData_migrates (host := utcHost) upgradeEnv legacyExample
              [js "a"; js "b"] [js "c"] Hnew Hold legacyExample_isLegacy)
    as (l & e1 & Hload & Htext & Hdone & _).
  exists l, e1. split; [exact Hload|]. split; [exact Htext|exact Hdone].
Defined.

Lemma render_empty_collection_witness :
  todos blankPage = []
  /\ stats_textContent (fst (render (host := utcHost) blankPage returningEnv))
     = js "0 tasks".
Proof.
  split; [reflexivity|].
  exact (proj1 (proj2 (render_empty_collection (host := utcHost) blankPage
                         returningEnv eq_refl))).
Defined.

Lemma render_stats_match_rows_witness :
  todos (fst returningState) <> []
  /\ (currentSection (fst returningState) <> js "today" ->
      currentSection (fst returningState) <> js "completed" ->
      exists done : nat,
        (done + 1)%nat = 2%nat
        /\ stats_textContent
             (fst (render (host := utcHost) (fst returningState) (snd returningState)))
           = countToString (done + 1) ++ js " task" ++ plural (done + 1)
             ++ js " " ++ [8226%N] ++ js " " ++ countToString done ++ js " completed"
             ++ js " " ++ [8226%N] ++ js " " ++ countToString 1 ++ js " pending").
Proof.
  assert (todos (fst returningState) <> []) as Hne by (vm_compute; discriminate).
  split; [exact Hne|].
  exact (proj2 (proj2 (render_stats_match_rows (host := utcHost)
                         (fst returningState) (snd returningState) Hne))).
Defined.

Lemma deleteTodo_twice_witness :
  timeouts (snd returningState) = []
  /\ In (numberToString 1) (todoList_dataIds (fst returningState))
  /\ todos (fst (run (host := utcHost)
                     [Delete 1; Delete 1; TimerExpires; TimerExpires]
                     (fst returningState, snd returningState)))
     = todos (fst (run (host := utcHost) [Delete 1; TimerExpires]
                       (fst returningState, snd returningState))).
Proof.
  assert (timeouts (snd returningState) = []) as Hno by reflexivity.
  assert (In (numberToString 1) (todoList_dataIds (fst returningState))) as Hrow
    by (vm_compute; left; reflexivity).
  split; [exact Hno|]. split; [exact Hrow|].
  exact (proj1 (proj2 (deleteTodo_twice (host := utcHost) 1
                         (fst returningState) (snd returningState) Hno Hrow))).
Defined.

Lemma returningState_ids_distinct :
  NoDup (List.map id (todos (fst returningState))).
Proof.
  change (NoDup [1; 7]).
  repeat (apply NoDup_cons; split);
    try (rewrite ?elem_of_cons, elem_of_nil; intros H; decompose [or] H;
         discriminate || contradiction).
  apply NoDup_nil. exact I.
Defined.

Lemma toggleTodo_removes_row_witness :
  currentSection (fst returningState) <> js "today"
  /\ NoDup (List.map id (todos (fst returningState)))
  /\ In openTask (fst (getFilteredTodos (host := utcHost)
                         (fst returningState) (snd returningState)))
  /\ ~ In (numberToString (id openTask))
          (todoList_dataIds
             (fst (toggleTodo (host := utcHost) (id openTask)
                              (fst returningState) (snd returningState)))).
Proof.
  assert (currentSection (fst returningState) <> js "today") as Hs
    by (vm_compute; discriminate).
  assert (In openTask (fst (getFilteredTodos (host := utcHost)
                              (fst returningState) (snd returningState)))) as Hin
    by (vm_compute; left; reflexivity).
  split; [exact Hs|]. split; [exact returningState_ids_distinct|]. split; [exact Hin|].
  exact (proj2 (proj2 (toggleTodo_removes_row (host := utcHost) openTask
                         (fst returningState) (snd returningState)
                         Hs returningState_ids_distinct Hin))).
Defined.


Lemma toggleThemeView_twice_witness :
  (currentTheme (fst returningState) = js "light"
   \/ currentTheme (fst returningState) = js "dark")
  /\ themeToggle freshThemeView = Some {| sunIcon := Some []; moonIcon := Some [] |}
  /\ body_darkTheme (toggleThemeView (fst returningState) (snd returningState)
                                     freshThemeView)
     = negb (body_darkTheme (initTheme (fst returningState) freshThemeView)).
Proof.
  assert (currentTheme (fst returningState) = js "light"
          \/ currentTheme (fst returningState) = js "dark") as Ht
    by (left; reflexivity).
  split; [exact Ht|]. split; [reflexivity|].
  exact (proj1 (toggleThemeView_twice (fst returningState) (snd returningState)
                  freshThemeView [] [] Ht eq_refl)).
Defined.

Lemma first_visit_witness :
  getTruthy "todos" (freshEnv (fixedClock loadTime)) = None
  /\ getTruthy "todoList" (freshEnv (fixedClock loadTime)) = None
  /\ exists st,
       TodoApp_new (host := utcHost) (freshEnv (fixedClock loadTime)) = Some st
       /\ todos (fst st) = []
       /\ localStorage (snd st) = ∅.
Proof.
  split; [reflexivity|]. split; [reflexivity|].
  destruct (first_visit (host := utcHost) (freshEnv (fixedClock loadTime))
              eq_refl eq_refl) as (st & Hnew & Htodos & Hstore & _).
  exists st. split; [exact Hnew|]. split; [exact Htodos|exact Hstore].
Defined.


Lemma delete_button_removes_its_task_witness :
  reachable (host := utcHost) returningState
  /\ timeouts (snd returningState) = []
  /\ NoDup (List.map id (todos (fst returningState)))
  /\ In (numberToString 1) (todoList_dataIds (fst returningState))
  /\ exists l1 todo l2,
       todos (fst returningState) = l1 ++ todo :: l2
       /\ id todo = 1
       /\ todos (fst (run (host := utcHost) [Delete 1; TimerExpires] returningState))
          = l1 ++ l2.
Proof.
  assert (In (numberToString 1) (todoList_dataIds (fst returningState))) as Hrow
    by (vm_compute; left; reflexivity).
  split; [exact returningState_reachable|]. split; [reflexivity|].
  split; [exact returningState_ids_distinct|]. split; [exact Hrow|].
  exact (delete_button_removes_its_task (host := utcHost) 1 returningState
           returningState_reachable eq_refl returningState_ids_distinct Hrow).
Defined.

Lemma events_without_add_keep_ids_witness :
  ~ In Add [Toggle 7; Delete 1; Switch (js "completed"); TimerExpires]
  /\ NoDup (List.map id
              (todos (fst (run (host := utcHost)
                               [Toggle 7; Delete 1; Switch (js "completed");
                                TimerExpires]
                               returningState)))).
Proof.
  assert (~ In Add [Toggle 7; Delete 1; Switch (js "completed"); TimerExpires])
    as Hevs by (intros H; cbn in H; decompose [or] H; discriminate || contradiction).
  split; [exact Hevs|].
  exact (proj2 (events_without_add_keep_ids (host := utcHost) _ returningState Hevs)
               returningState_ids_distinct).
Defined.
